(** * train.py: configuration resolution and the TrainHandler decisions

  A shallow embedding of the decision logic of [src/train.py]: the merge of
  the command line with the two YAML layers in [main], and the methods of
  [TrainHandler] that choose a model class, a checkpoint policy, the batch
  sizes, the pretrained-checkpoint path and the calls made to the trainer.
  The deep-learning framework, the experiment tracker and the data module
  are collaborators: their calls are recorded, in order, in a trace. *)

From Stdlib Require Import ZArith NArith Ascii String Bool Lia.
From stdpp Require Import base option list gmap strings pretty fin_maps.

Local Open Scope string_scope.

(** ** Python values and strings *)

Module Py.

(** The values an option of the command line or of a YAML file holds. *)
Inductive value :=
| VNone
| VBool (b : bool)
| VInt (z : Z)
| VStr (s : string).

#[global] Instance value_eq_dec : EqDecision value.
Proof. solve_decision. Defined.

(** [bool(v)]: [None], [False], [0] and [''] are false. *)
Definition truthy (v : value) : bool :=
  match v with
  | VNone => false
  | VBool b => b
  | VInt z => negb (z =? 0)%Z
  | VStr s => negb (s =? "")
  end.

(** [v is None] *)
Definition is_None (v : value) : bool :=
  match v with VNone => true | _ => false end.

(** [str.lower] on one character.  Only [A]..[Z] change: the strings the
    source compares the result with are ASCII, and no character outside
    ASCII lowers to one of their letters. *)
Definition lower_ascii (c : ascii) : ascii :=
  let n := N_of_ascii c in
  if ((65 <=? n) && (n <=? 90))%N then ascii_of_N (n + 32) else c.

Fixpoint lower (s : string) : string :=
  match s with
  | EmptyString => EmptyString
  | String c s' => String (lower_ascii c) (lower s')
  end.

(** [os.path.join(a, b)] of [posixpath], for two components. *)
Definition starts_with_sep (s : string) : bool :=
  match s with
  | String c _ => (c =? "/")%char
  | EmptyString => false
  end.

Fixpoint ends_with_sep (s : string) : bool :=
  match s with
  | EmptyString => false
  | String c EmptyString => (c =? "/")%char
  | String _ s' => ends_with_sep s'
  end.

Definition os_path_join (a b : string) : string :=
  if starts_with_sep b then b
  else if (a =? "") || ends_with_sep a then a +:+ b
  else a +:+ "/" +:+ b.

End Py.
Import Py.

(** ** Exceptions and the two monads *)

Inductive exn :=
| ValueError (msg : string)
| FileNotFoundError (path : string)
| AttributeError (attr : string)
| TypeError.

(** Pure code that can raise. *)
Abbreviation result := (sum exn).

#[global] Instance result_ret : MRet result := λ _ x, inr x.
#[global] Instance result_bind : MBind result :=
  λ _ _ f m, match m with inl e => inl e | inr x => f x end.

Definition raise {A} (e : exn) : result A := inl e.

(** ** The collaborators and the trace of their calls *)

Inductive loader := Loader (handle : nat).

Inductive model_cls := RegNetY | EndoViT | TimmModel.

(** [model_cls(config=config, class_to_idx=..., checkpoint_path=checkpoint_path)] *)
Record model := Model {
  model_class : model_cls;
  model_checkpoint_path : Py.value;
}.

(** The texts given to [logging.info]; numbers are kept unformatted. *)
Inductive log_msg :=
| MsgNoTestDataloader                 (* "No test dataloader available. Skip testing." *)
| MsgGpu (i : nat) (name : string) (total_memory : N)
                                      (* "GPU {i}: {name}, Total VRAM: {vram:.2f} GB" *)
| MsgNoCuda                           (* "No CUDA GPUs are available" *)
| MsgBatchSizes (train_bs val_bs : Py.value).
                                      (* "Batch sizes: Train: {train_bs}, Val: {val_bs}" *)

Inductive call :=
| seed_everything (seed : Py.value)
| os_makedirs (path : string) (exist_ok : bool)
| logging_info (msg : log_msg)
| wandb_config_update (train_bs val_bs : Py.value) (allow_val_change : bool)
| trainer_fit (m : model) (train_dataloaders : loader) (val_dataloaders : option loader)
| trainer_test (m : model) (dataloaders : option loader) (ckpt_path : string).

(** Code that calls collaborators: the calls made so far are threaded
    through, and kept when an exception is raised. *)
Definition M (A : Type) : Type := list call → result A * list call.

#[global] Instance M_ret : MRet M := λ _ x tr, (inr x, tr).
#[global] Instance M_bind : MBind M :=
  λ _ _ f m tr, match m tr with
                | (inl e, tr') => (inl e, tr')
                | (inr x, tr') => f x tr'
                end.

Definition emit (c : call) : M unit := λ tr, (inr tt, (tr ++ [c])%list).
Definition lift {A} (r : result A) : M A := λ tr, (r, tr).
(** A computation run from the empty trace. *)
Definition exec {A} (m : M A) : result A * list call := m [].

(** ** Namespaces *)

(** An [argparse.Namespace], through its [__dict__]. *)
Abbreviation Namespace := (gmap string value).

(** [ns.name] *)
Definition getattr (ns : Namespace) (name : string) : result value :=
  match ns !! name with
  | Some v => inr v
  | None => raise (AttributeError name)
  end.

(** [getattr(ns, name, None)] *)
Definition getattr_or_None (ns : Namespace) (name : string) : value :=
  default VNone (ns !! name).

(** [str(v)], as an f-string inserts it. *)
Definition str (v : value) : string :=
  match v with
  | VNone => "None"
  | VBool true => "True"
  | VBool false => "False"
  | VInt z => pretty z
  | VStr s => s
  end.

(** [os.path.join] raises on a component that is not a string. *)
Definition os_path_join_values (a b : value) : result string :=
  match a, b with
  | VStr a, VStr b => inr (os_path_join a b)
  | _, _ => raise TypeError
  end.

(** ** [main]: the layers of the configuration (lines 213-234) *)

Definition local_conf_path : string :=
  "/home/endodl/PHASE-1/mln/lesions_cv24/MAIN/codes/capsule_vision_challenge_2024/configs/submission/data.yaml".

(** The YAML files on disk, by path, as [yaml.safe_load] returns them. *)
Abbreviation files := (gmap string (gmap string value)).

(** [for key, value in d.items(): setattr(args, key, value)] *)
Definition setattr_items (d : gmap string value) (args : Namespace) : Namespace :=
  map_fold (λ key value acc, <[key := value]> acc) args d.

(** [for key, value in vars(args).items():
       if value is None and key in config_args:
           setattr(args, key, config_args[key])]
    Only the value of the key being visited is replaced, so each value the
    loop reads is the one [args] held when the loop started. *)
Definition fill_unset (config_args : gmap string value) (args : Namespace) : Namespace :=
  map_fold (λ key value acc,
              if is_None value then
                match config_args !! key with
                | Some v => <[key := v]> acc
                | None => acc
                end
              else acc) args args.

(** [with open(path, 'r') as f: yaml.safe_load(f)] *)
Definition load_yaml (fs : files) (path : value) : result (gmap string value) :=
  match path with
  | VStr p =>
      match fs !! p with
      | Some d => inr d
      | None => raise (FileNotFoundError p)
      end
  | _ => raise TypeError
  end.

(** [if os.path.exists(local_conf_path): ... setattr(args, key, value)] *)
Definition local_layer (fs : files) (args : Namespace) : Namespace :=
  match fs !! local_conf_path with
  | Some local_config_args => setattr_items local_config_args args
  | None => args
  end.

(** The arguments that [main] hands to [wandb.init]. *)
Definition main_config (fs : files) (args : Namespace) : result Namespace :=
  config ← getattr args "config";
  '(config_args, args) ←
    (if truthy config then
       config_args ← load_yaml fs config;
       mret (config_args, setattr_items config_args args)
     else mret (∅, args));
  let args := local_layer fs args in
  mret (fill_unset config_args args).

(** ** [TrainHandler] *)

(** The data module is set up once, in [__init__]; each of its three methods
    gives the same loader, or [None], whenever it is called. *)
Record DataModule := {
  train_dataloader : option loader;
  val_dataloader : option loader;
  test_dataloader : option loader;
}.

Record TrainHandler := {
  data_module : DataModule;
  self_model : model;
  train_loader_only : value;
}.

Definition msg_no_validation : string :=
  "Validation loader is None and 'train_loader_only' is not set to True. Please provide a validation loader.".

Definition train (self : TrainHandler) : M unit :=
  let train_loader := train_dataloader (data_module self) in
  let val_loader := val_dataloader (data_module self) in
  match train_loader with
  | Some train_loader =>
      if truthy (train_loader_only self) then
        emit (trainer_fit (self_model self) train_loader None)
      else
        match val_loader with
        | Some val_loader =>
            emit (trainer_fit (self_model self) train_loader (Some val_loader))
        | None => lift (raise (ValueError msg_no_validation))
        end
  | None => mret tt
  end.

Definition test (self : TrainHandler) : M unit :=
  match test_dataloader (data_module self) with
  | None => emit (logging_info MsgNoTestDataloader)
  | Some _ =>
      emit (trainer_test (self_model self) (test_dataloader (data_module self)) "best")
  end.

(** [wandb.run], as far as [__preparations] reads it. *)
Record wandb_run := {
  sweep_id : option string;
  run_name : string;
}.

Inductive checkpoint_mode := mode_min | mode_max.

Record ModelCheckpoint := {
  dirpath : string;
  filename : string;
  save_top_k : Z;
  save_weights_only : bool;
  mode : checkpoint_mode;
  monitor : value;
  verbose : value;
  auto_insert_metric_name : bool;
}.

Inductive callback :=
| CheckpointCallback (c : ModelCheckpoint)
| ModelSummary (max_depth : Z)
| LearningRateMonitor (logging_interval : string).

(** [if sweep_id:] *)
Definition sweep_given (sweep_id : option string) : bool :=
  match sweep_id with
  | Some s => truthy (VStr s)
  | None => false
  end.

(** [timestamp] is [datetime.now().strftime("%Y%m%d_%H%M%S")], read once.
    Of the pair that the source returns only the callbacks are kept: the
    logger wraps [wandb.run] and takes no decision. *)
Definition __preparations (run : wandb_run) (timestamp : string) (config : Namespace)
  : M (list callback) :=
  seed ← lift (getattr config "seed");
  _ ← emit (seed_everything seed);
  metric ← lift (getattr config "metric");
  '(checkpoint_dir, filename) ←
    (if sweep_given (sweep_id run) then
       let directory_name := "sweep-" +:+ default "" (sweep_id run) in
       root ← lift (getattr config "checkpoint_dir");
       checkpoint_dir ← lift (os_path_join_values root (VStr directory_name));
       _ ← emit (os_makedirs checkpoint_dir true);
       mret (checkpoint_dir,
             run_name run +:+ "_epoch{epoch:02d}_" +:+ str metric +:+ "{" +:+ str metric +:+ ":.2f}")
     else
       let directory_name := "run-" +:+ timestamp +:+ "-" +:+ run_name run in
       root ← lift (getattr config "checkpoint_dir");
       checkpoint_dir ← lift (os_path_join_values root (VStr directory_name));
       _ ← emit (os_makedirs checkpoint_dir true);
       mret (checkpoint_dir,
             "best_epoch{epoch:02d}_" +:+ str metric +:+ "{" +:+ str metric +:+ ":.2f}"));
  verbose ← lift (getattr config "verbose");
  mret [CheckpointCallback {| dirpath := checkpoint_dir;
                              filename := filename;
                              save_top_k := 1;
                              save_weights_only := false;
                              mode := mode_max;
                              monitor := metric;
                              verbose := verbose;
                              auto_insert_metric_name := false |};
        ModelSummary 0;
        LearningRateMonitor "epoch"].

(** What [torch.cuda] reports: [is_available()] and, per device, its name
    and [total_memory]. *)
Record cuda := {
  is_available : bool;
  devices : list (string * N);
}.

(** [for i in range(torch.cuda.device_count()): ... logging.info(...)],
    from device [i] on.  The sum [total_vram] is not read afterwards. *)
Fixpoint log_devices (i : nat) (ds : list (string * N)) : M unit :=
  match ds with
  | [] => mret tt
  | (name, total_memory) :: ds' =>
      _ ← emit (logging_info (MsgGpu i name total_memory));
      log_devices (S i) ds'
  end.

Definition __get_batch_size (gpu : cuda) (args : Namespace) : M (value * value) :=
  _ ← (if is_available gpu then log_devices 0 (devices gpu)
       else emit (logging_info MsgNoCuda));
  let train_bs := VInt 64 in
  let val_bs := train_bs in
  args_train_bs ← lift (getattr args "train_bs");
  let train_bs := if truthy args_train_bs then args_train_bs else train_bs in
  args_val_bs ← lift (getattr args "val_bs");
  let val_bs := if truthy args_val_bs then args_val_bs else val_bs in
  _ ← emit (logging_info (MsgBatchSizes train_bs val_bs));
  _ ← emit (wandb_config_update train_bs val_bs true);
  mret (train_bs, val_bs).

Definition __get_model_cls (model_arch model_type : value) : result model_cls :=
  if decide (model_type = VStr "seer") then mret RegNetY
  else
    is_endovit ←
      (if decide (model_type = VStr "endovit") then mret true
       else match model_arch with
            | VStr a => mret (lower a =? "endovit")
            | _ => raise (AttributeError "lower")
            end);
    if is_endovit : bool then mret EndoViT
    else if decide (model_type = VStr "timm") then mret TimmModel
    else raise (ValueError ("Model type " +:+ str model_type +:+ " is not supported.")).

Definition __get_checkpoint_path (config : Namespace) : result value :=
  let checkpoint_filename := getattr_or_None config "checkpoint_filename" in
  let checkpoint_dir := getattr_or_None config "pretrained_checkpoint_dir" in
  if truthy checkpoint_filename && truthy checkpoint_dir then
    checkpoint_path ← os_path_join_values checkpoint_dir checkpoint_filename;
    mret (VStr checkpoint_path)
  else mret VNone.

Definition __prepare_model (config : Namespace) : result model :=
  checkpoint_path ← __get_checkpoint_path config;
  model_arch ← getattr config "model_arch";
  model_type ← getattr config "model_type";
  model_cls ← __get_model_cls model_arch model_type;
  mret (Model model_cls checkpoint_path).

(** ** The rest of [TrainHandler] *)

(** [v > n] for an integer literal [n]; [None] and a string cannot be
    ordered with an integer, a boolean counts as 0 or 1. *)
Definition py_gt (v : value) (n : Z) : result bool :=
  match v with
  | VInt z => inr (n <? z)%Z
  | VBool b => inr (n <? Z.b2z b)%Z
  | _ => raise TypeError
  end.

(** [v == n] for an integer literal [n] *)
Definition py_eq (v : value) (n : Z) : bool :=
  match v with
  | VInt z => (z =? n)%Z
  | VBool b => (Z.b2z b =? n)%Z
  | _ => false
  end.

(** The keyword arguments of [Trainer(...)], the logger apart. *)
Record Trainer := {
  accelerator : string;
  trainer_devices : value;
  num_nodes : value;
  max_epochs : value;
  callbacks : list callback;
  precision : string;
  gradient_clip_val : Qp;
  enable_model_summary : bool;
  strategy : string;
}.

(** [mps] is [torch.backends.mps.is_available()]. *)
Definition __prepare_trainer (mps : bool) (gpu : cuda) (self_callbacks : list callback)
    (args : Namespace) : result Trainer :=
  let accelerator :=
    if mps then "mps" else if is_available gpu then "gpu" else "cpu" in
  num_devices ← getattr args "num_devices";
  more_devices ← py_gt num_devices 1;
  ddp_training ←
    (if more_devices : bool then mret true
     else num_nodes ← getattr args "num_nodes"; py_gt num_nodes 1);
  num_devices ← getattr args "num_devices";
  let devices := if py_eq num_devices 1 then VStr "auto" else num_devices in
  let strategy := if ddp_training : bool then "ddp" else "auto" in
  num_nodes ← getattr args "num_nodes";
  max_epochs ← getattr args "max_epochs";
  mret {| accelerator := accelerator;
          trainer_devices := devices;
          num_nodes := num_nodes;
          max_epochs := max_epochs;
          callbacks := self_callbacks;
          precision := "16-mixed";
          gradient_clip_val := (1 / 2)%Qp;
          enable_model_summary := false;
          strategy := strategy |}.

(** What [load_class_mapping(path)] and [load_transforms(...)] give back. *)
Inductive class_mapping := ClassMapping (path : string).
Inductive transforms := Transforms (img_size transform_path : value).

(** The keyword arguments of [DataModule(...)]. *)
Record DataModuleArgs := {
  dm_class_mapping : class_mapping;
  dm_transforms : transforms;
  dm_train_bs : value;
  dm_val_bs : value;
  dm_dataset_path : value;
  dm_dataset_csv_path : value;
  dm_fold_idx : value;
  dm_num_workers : value;
  dm_train_frac : value;
  dm_val_frac : value;
  dm_include_test_in_train : value;
}.

(** The calls of a whole run: those of [call], and those that only
    [__init__], the data-module helpers and [main] make. *)
Inductive effect :=
| tracked (c : call)
| print_debug (dataset_csv_path class_mapping_filename : value)
| load_class_mapping (path : string)
| logging_info_img_size (img_size : value)   (* "Using provided image size: {img_size}" *)
| load_transforms (img_size transform_path : value)
| wandb_log_transforms (transform_path : value)
                                  (* wandb.log({'transforms': open(transform_path).read()}) *)
| DataModule_new (a : DataModuleArgs)
| DataModule_setup
| Trainer_new (t : Trainer)
| model_new (m : model)
| wandb_init (config : Namespace) (entity project : value)
| logging_basicConfig
| wandb_use_artifact (name : string)
| wandb_Artifact (name type : string)
| artifact_add_file (path : string)
| wandb_log_artifact
| wandb_finish.

Definition IO (A : Type) : Type := list effect → result A * list effect.

#[global] Instance IO_ret : MRet IO := λ _ x tr, (inr x, tr).
#[global] Instance IO_bind : MBind IO :=
  λ _ _ f m tr, match m tr with
                | (inl e, tr') => (inl e, tr')
                | (inr x, tr') => f x tr'
                end.

Definition perform (e : effect) : IO unit := λ tr, (inr tt, (tr ++ [e])%list).
Definition pure {A} (r : result A) : IO A := λ tr, (r, tr).

(** A computation of [M] inside a whole run: its calls follow the ones
    already made. *)
Definition tracked_calls {A} (m : M A) : IO A :=
  λ tr, (fst (exec m), (tr ++ (tracked <$> snd (exec m)))%list).

Definition __prepare_class_mapping (args : Namespace) : IO class_mapping :=
  dataset_csv_path ← pure (getattr args "dataset_csv_path");
  class_mapping_filename ← pure (getattr args "class_mapping_filename");
  _ ← perform (print_debug dataset_csv_path class_mapping_filename);
  dataset_csv_path ← pure (getattr args "dataset_csv_path");
  class_mapping_filename ← pure (getattr args "class_mapping_filename");
  path ← pure (os_path_join_values dataset_csv_path class_mapping_filename);
  _ ← perform (load_class_mapping path);
  mret (ClassMapping path).

Definition __prepare_transforms (args : Namespace) : IO transforms :=
  img_size ← pure (getattr args "img_size");
  _ ← perform (logging_info_img_size img_size);
  transform_path ← pure (getattr args "transform_path");
  _ ← perform (load_transforms img_size transform_path);
  transform_path' ← pure (getattr args "transform_path");
  _ ← perform (wandb_log_transforms transform_path');
  mret (Transforms img_size transform_path).

(** [built] is the data module that [DataModule(...)] and [setup()] leave. *)
Definition __prepare_data_module (gpu : cuda) (built : DataModule) (args : Namespace)
  : IO DataModule :=
  class_mapping ← __prepare_class_mapping args;
  transforms ← __prepare_transforms args;
  '(train_bs, val_bs) ← tracked_calls (__get_batch_size gpu args);
  dataset_path ← pure (getattr args "dataset_path");
  dataset_csv_path ← pure (getattr args "dataset_csv_path");
  fold_id ← pure (getattr args "fold_id");
  num_workers ← pure (getattr args "num_workers");
  train_frac ← pure (getattr args "train_frac");
  val_frac ← pure (getattr args "val_frac");
  include_test_in_train ← pure (getattr args "include_test_in_train");
  _ ← perform (DataModule_new {| dm_class_mapping := class_mapping;
                                 dm_transforms := transforms;
                                 dm_train_bs := train_bs;
                                 dm_val_bs := val_bs;
                                 dm_dataset_path := dataset_path;
                                 dm_dataset_csv_path := dataset_csv_path;
                                 dm_fold_idx := fold_id;
                                 dm_num_workers := num_workers;
                                 dm_train_frac := train_frac;
                                 dm_val_frac := val_frac;
                                 dm_include_test_in_train := include_test_in_train |});
  _ ← perform DataModule_setup;
  mret built.

(** What the run finds around it: the YAML files, the accelerators, the
    run that [wandb.init] opens and the configuration it hands back, the
    time, the data module that the data on disk gives, and the path of
    the best checkpoint once training is over. *)
Record world := {
  w_files : files;
  w_mps : bool;
  w_cuda : cuda;
  w_run : wandb_run;
  w_wandb_config : Namespace → Namespace;
  w_timestamp : string;
  w_data_module : DataModule;
  w_best_model_path : string;
}.

(** The attributes that [__init__] sets, the logger and the class mapping
    apart. *)
Record handler_state := {
  handler : TrainHandler;
  self_trainer : Trainer;
}.

Definition __init__ (w : world) (args : Namespace) : IO handler_state :=
  self_callbacks ← tracked_calls (__preparations (w_run w) (w_timestamp w) args);
  self_data_module ← __prepare_data_module (w_cuda w) (w_data_module w) args;
  self_trainer ← pure (__prepare_trainer (w_mps w) (w_cuda w) self_callbacks args);
  _ ← perform (Trainer_new self_trainer);
  self_model ← pure (__prepare_model args);
  _ ← perform (model_new self_model);
  train_loader_only ← pure (getattr args "train_loader_only");
  mret {| handler := {| data_module := self_data_module;
                        self_model := self_model;
                        train_loader_only := train_loader_only |};
          self_trainer := self_trainer |}.

(** ** [main], whole *)

Definition main (w : world) (args : Namespace) : IO unit :=
  args ← pure (main_config (w_files w) args);
  entity ← pure (getattr args "entity");
  wandb_project ← pure (getattr args "wandb_project");
  _ ← perform (wandb_init args entity wandb_project);
  let args := w_wandb_config w args in
  _ ← perform logging_basicConfig;
  _ ← perform (wandb_use_artifact "comb_mln2:latest");
  trainer ← __init__ w args;
  _ ← tracked_calls (train (handler trainer));
  _ ← perform (wandb_Artifact "eva02_ulcers_erosions" "model");
  _ ← perform (artifact_add_file (w_best_model_path w));
  _ ← perform wandb_log_artifact;
  perform wandb_finish.

(** ** Vocabulary of the specification *)

(** Case-insensitive equality of two strings, without going through
    [lower]: same length, and at each position the same character or the
    two cases of one ASCII letter. *)
Definition is_upper (c : ascii) : bool :=
  ((65 <=? N_of_ascii c) && (N_of_ascii c <=? 90))%N.

Definition same_letter (c d : ascii) : bool :=
  (c =? d)%char
  || (is_upper c && (N_of_ascii c + 32 =? N_of_ascii d)%N)
  || (is_upper d && (N_of_ascii d + 32 =? N_of_ascii c)%N).

Fixpoint caseless_eqb (s t : string) : bool :=
  match s, t with
  | EmptyString, EmptyString => true
  | String c s', String d t' => same_letter c d && caseless_eqb s' t'
  | _, _ => false
  end.

Fixpoint no_upper (t : string) : bool :=
  match t with
  | EmptyString => true
  | String d t' => negb (is_upper d) && no_upper t'
  end.

(** [sub] occurs in [s]. *)
Definition embeds (sub s : string) : Prop :=
  ∃ before after, s = before +:+ sub +:+ after.

(** [s] starts with [p]. *)
Definition begins_with (p s : string) : Prop :=
  ∃ rest, s = p +:+ rest.

(** The file layer: the options of the user's file, when one is named. *)
Definition file_layer (fs : files) (args : Namespace) : gmap string value :=
  match args !! "config" with
  | Some c =>
      if truthy c then
        match c with
        | VStr p => default ∅ (fs !! p)
        | _ => ∅
        end
      else ∅
  | None => ∅
  end.

(** The file named by [--config], when one is named, can be read. *)
Definition config_readable (fs : files) (args : Namespace) : Prop :=
  ∃ c, args !! "config" = Some c ∧
       (truthy c = false ∨ ∃ p, c = VStr p ∧ is_Some (fs !! p)).

(** The checkpoint callback expected of a run: directory and file name
    template by the kind of run, the rest fixed. *)
Definition checkpoint_of (wrun : wandb_run) (timestamp root : string)
    (metric verbose : value) : ModelCheckpoint :=
  {| dirpath :=
       os_path_join root
         (if sweep_given (sweep_id wrun)
          then "sweep-" +:+ default "" (sweep_id wrun)
          else "run-" +:+ timestamp +:+ "-" +:+ run_name wrun);
     filename :=
       (if sweep_given (sweep_id wrun)
        then run_name wrun +:+ "_epoch{epoch:02d}_"
        else "best_epoch{epoch:02d}_")
       +:+ str metric +:+ "{" +:+ str metric +:+ ":.2f}";
     save_top_k := 1;
     save_weights_only := false;
     mode := mode_max;
     monitor := metric;
     verbose := verbose;
     auto_insert_metric_name := false |}.

(** The batch size chosen for an option of value [v]. *)
Definition chosen_bs (v : value) : value :=
  if truthy v then v else VInt 64.

(** The lines logged about the accelerators. *)
Fixpoint device_lines (i : nat) (ds : list (string * N)) : list call :=
  match ds with
  | [] => []
  | (name, total_memory) :: ds' =>
      logging_info (MsgGpu i name total_memory) :: device_lines (S i) ds'
  end.

Definition gpu_report (gpu : cuda) : list call :=
  if is_available gpu then device_lines 0 (devices gpu)
  else [logging_info MsgNoCuda].

(** The options of the local file, none when the file does not exist. *)
Definition local_overrides (fs : files) : gmap string value :=
  default ∅ (fs !! local_conf_path).

(** A computation [behaves] within [P] and [Q] when it only adds calls to
    the trace, the added calls satisfy [P], and an exception it raises
    satisfies [Q]. *)
Definition behaves (P : effect → Prop) (Q : exn → Prop) {A} (m : IO A) : Prop :=
  ∀ tr, ∃ new,
    snd (m tr) = (tr ++ new)%list ∧ Forall P new ∧
    match fst (m tr) with
    | inl e => Q e
    | inr _ => True
    end.

(** Calls that are neither an evaluation on the test loader nor one of the
    calls that close a run. *)
Definition quiet (e : effect) : Prop :=
  (∀ m d c, e ≠ tracked (trainer_test m d c)) ∧
  e ≠ wandb_log_artifact ∧ e ≠ wandb_finish.

Definition not_ValueError (e : exn) : Prop := ∀ msg, e ≠ ValueError msg.

(** A computation [ends_in] a suffix [S] when, if it returns, the calls it
    added are calls within [P] followed by calls that satisfy [S], and the
    value returned satisfies [R]; if it raises, the calls it added are all
    within [P]. *)
Definition ends_in (P : effect → Prop) (S : list effect → Prop) {A} (R : A → Prop)
    (m : IO A) : Prop :=
  ∀ tr,
    match m tr with
    | (inl _, tr') => ∃ new, tr' = (tr ++ new)%list ∧ Forall P new
    | (inr a, tr') =>
        R a ∧ ∃ body suffix, tr' = (tr ++ body ++ suffix)%list ∧ Forall P body ∧ S suffix
    end.

(** The calls that close a run, and the two that build the data module. *)
Definition closing_calls (w : world) (suffix : list effect) : Prop :=
  suffix = [wandb_Artifact "eva02_ulcers_erosions" "model";
            artifact_add_file (w_best_model_path w);
            wandb_log_artifact; wandb_finish].

Definition data_module_calls (suffix : list effect) : Prop :=
  ∃ a, suffix = [DataModule_new a; DataModule_setup].

(** An option is configured when it holds a value that Python takes as
    true: not [None], not the empty string. *)
Definition configured (config : Namespace) (name : string) : Prop :=
  truthy (getattr_or_None config name) = true.

(** The options of the command line are strings, or [None] when not given. *)
Definition str_or_None (v : value) : Prop :=
  match v with
  | VNone | VStr _ => True
  | _ => False
  end.

(** ** Inputs used as examples *)

(** [--config config.yaml --train_bs 64] *)
Definition cli_train_bs_64 : Namespace :=
  {[ "config" := VStr "config.yaml"; "train_bs" := VInt 64 ]}.

(** [config.yaml] holds [train_bs: 32]; the local file does not exist. *)
Definition user_file_only : files :=
  {[ "config.yaml" := {[ "train_bs" := VInt 32 ]} ]}.

(** As above, and the local file exists and holds [train_bs: 128]. *)
Definition user_and_local_file : files :=
  {[ "config.yaml" := {[ "train_bs" := VInt 32 ]};
     local_conf_path := {[ "train_bs" := VInt 128 ]} ]}.

(** As above, and the local file exists and holds [train_bs: null]. *)
Definition user_and_null_local_file : files :=
  {[ "config.yaml" := {[ "train_bs" := VInt 32 ]};
     local_conf_path := {[ "train_bs" := VNone ]} ]}.

Definition some_model : model := Model TimmModel VNone.

(** A data module without loaders, [train_loader_only] not requested. *)
Definition handler_without_loaders : TrainHandler :=
  {| data_module := {| train_dataloader := None;
                       val_dataloader := None;
                       test_dataloader := None |};
     self_model := some_model;
     train_loader_only := VBool false |}.

(** A run of a sweep and a run of its own, both named [foo]. *)
Definition sweep_run : wandb_run := {| sweep_id := Some "s1"; run_name := "foo" |}.
Definition single_run : wandb_run := {| sweep_id := None; run_name := "foo" |}.

Definition sample_config : Namespace :=
  {[ "seed" := VInt 42; "metric" := VStr "val_AUC_macro";
     "checkpoint_dir" := VStr "checkpoints"; "verbose" := VBool false;
     "train_bs" := VInt 0; "val_bs" := VNone;
     "checkpoint_filename" := VStr "last.ckpt";
     "pretrained_checkpoint_dir" := VStr "pretrained";
     "model_arch" := VStr "regnety_640.seer"; "model_type" := VStr "seer" ]}.

Definition two_gpus : cuda :=
  {| is_available := true;
     devices := [("A100", 42949672960%N); ("A100", 42949672960%N)] |}.

(** [--train_bs 32 --val_bs 16] *)
Definition explicit_sizes : Namespace :=
  {[ "train_bs" := VInt 32; "val_bs" := VInt 16 ]}.

(** The handler of a data module with the given loaders. *)
Definition handler_with (train val test : option loader) (flag : value) : TrainHandler :=
  {| data_module := {| train_dataloader := train;
                       val_dataloader := val;
                       test_dataloader := test |};
     self_model := some_model;
     train_loader_only := flag |}.

(** The default of [--class_mapping_filename], and arguments that hold it. *)
Definition default_class_mapping_filename : string :=
  "/home/endodl/PHASE-1/mln/lesions_cv24/MAIN/data1/capsulevision/class_mapping1.json".

Definition default_mapping_args : Namespace :=
  {[ "dataset_csv_path" := VStr "data/csv";
     "class_mapping_filename" := VStr default_class_mapping_filename ]}.

Definition config_without_verbose : Namespace :=
  {[ "seed" := VInt 42; "metric" := VStr "val_AUC_macro";
     "checkpoint_dir" := VStr "checkpoints" ]}.

(** [--num_devices 2] on one node. *)
Definition two_devices : Namespace :=
  {[ "num_devices" := VInt 2; "num_nodes" := VInt 1; "max_epochs" := VInt 50 ]}.

(** A command line with every option that a run reads, no configuration
    file, and the world of a run on one CUDA device. *)
Definition full_args : Namespace :=
  list_to_map
    [ ("config", VNone); ("entity", VStr "lab"); ("wandb_project", VStr "capsule");
      ("seed", VInt 42); ("metric", VStr "val_AUC_macro");
      ("checkpoint_dir", VStr "checkpoints"); ("verbose", VBool false);
      ("dataset_csv_path", VStr "data/csv");
      ("class_mapping_filename", VStr "class_mapping.json");
      ("img_size", VInt 224);
      ("transform_path", VStr "configs/transforms/alpha_transforms.py");
      ("train_bs", VInt 64); ("val_bs", VInt 64);
      ("dataset_path", VStr "../data/"); ("fold_id", VInt 1); ("num_workers", VInt 16);
      ("train_frac", VInt 1); ("val_frac", VInt 1);
      ("include_test_in_train", VBool false);
      ("num_devices", VInt 1); ("num_nodes", VInt 1); ("max_epochs", VInt 50);
      ("model_arch", VStr "regnety_640.seer"); ("model_type", VStr "seer");
      ("train_loader_only", VBool false) ].

Definition unsupported_args : Namespace :=
  <[ "model_arch" := VStr "resnet50" ]> (<[ "model_type" := VStr "resnet" ]> full_args).

Definition sample_world : world :=
  {| w_files := ∅;
     w_mps := false;
     w_cuda := {| is_available := true; devices := [("A100", 42949672960%N)] |};
     w_run := single_run;
     w_wandb_config := λ config, config;
     w_timestamp := "20240101_000000";
     w_data_module := {| train_dataloader := Some (Loader 1);
                         val_dataloader := Some (Loader 2);
                         test_dataloader := Some (Loader 3) |};
     w_best_model_path := "checkpoints/run-20240101_000000-foo/best.ckpt" |}.

(** [--train_bs 0] and no [val_bs] given a value. *)
Definition zero_sizes_args : Namespace :=
  <[ "train_bs" := VInt 0 ]> (<[ "val_bs" := VNone ]> full_args).

(** * Properties *)

Section Strings.

Lemma lower_ascii_eqb (c d : ascii) :
  is_upper d = false → (lower_ascii c =? d)%char = same_letter c d.
Proof.
  intros Hd. unfold lower_ascii, same_letter. rewrite Hd, orb_false_r. fold (is_upper c).
  pose proof (N_ascii_bounded c) as Hc. pose proof (N_ascii_bounded d) as Hdb.
  unfold is_upper in *.
  destruct ((65 <=? N_of_ascii c)%N && (N_of_ascii c <=? 90)%N) eqn:Hup; simpl.
  - apply andb_true_iff in Hup as [H1%N.leb_le H2%N.leb_le].
    destruct (N.eqb_spec (N_of_ascii c + 32) (N_of_ascii d)) as [He|Hne].
    + rewrite orb_true_r. apply Ascii.eqb_eq.
      rewrite He. apply ascii_N_embedding.
    + rewrite orb_false_r.
      destruct (Ascii.eqb_spec c d) as [->|Hcd].
      * apply andb_false_iff in Hd as [Hd%N.leb_gt|Hd%N.leb_gt]; lia.
      * apply Ascii.eqb_neq. intros E. apply Hne. rewrite <- E. symmetry.
        apply N_ascii_embedding. lia.
  - by rewrite orb_false_r.
Qed.

Lemma lower_eqb_caseless (t : string) :
  no_upper t = true → ∀ s, (lower s =? t) = caseless_eqb s t.
Proof.
  induction t as [|d t IH]; intros Ht s; destruct s as [|c s]; simpl; try done.
  simpl in Ht. apply andb_true_iff in Ht as [Hd%negb_true_iff Ht].
  rewrite (lower_ascii_eqb c d Hd), (IH Ht s). done.
Qed.

Lemma append_assoc (a b c : string) : (a +:+ b) +:+ c = a +:+ b +:+ c.
Proof.
  induction a as [|x a IH]; [done|].
  change (String x ((a +:+ b) +:+ c) = String x (a +:+ b +:+ c)). by f_equal.
Qed.

Lemma embeds_middle (a s b : string) : embeds s (a +:+ s +:+ b).
Proof. by exists a, b. Qed.

Lemma embeds_front (s b c : string) : embeds s ((s +:+ b) +:+ c).
Proof. exists "", (b +:+ c). by rewrite append_assoc. Qed.

End Strings.

Section ConfigLayers.

Implicit Types (args : Namespace) (d config_args : gmap string value) (fs : files).

Lemma setattr_items_lookup d args (key : string) :
  setattr_items d args !! key =
    match d !! key with
    | Some v => Some v
    | None => args !! key
    end.
Proof.
  unfold setattr_items.
  apply (map_fold_weak_ind
           (λ r (m : gmap string value),
              r !! key = match m !! key with Some v => Some v | None => args !! key end)).
  - by rewrite lookup_empty.
  - intros i x m r Hi IH. destruct (decide (i = key)) as [->|Hne].
    + by rewrite !lookup_insert_eq.
    + by rewrite !lookup_insert_ne.
Qed.

Lemma fill_unset_fold config_args (acc0 m : gmap string value) (key : string) :
  map_fold (λ key value acc,
              if is_None value then
                match config_args !! key with
                | Some v => <[key := v]> acc
                | None => acc
                end
              else acc) acc0 m !! key =
    match m !! key with
    | Some VNone =>
        match config_args !! key with
        | Some v => Some v
        | None => acc0 !! key
        end
    | _ => acc0 !! key
    end.
Proof.
  apply (map_fold_weak_ind
           (λ r (m : gmap string value),
              r !! key = match m !! key with
                         | Some VNone =>
                             match config_args !! key with
                             | Some v => Some v
                             | None => acc0 !! key
                             end
                         | _ => acc0 !! key
                         end)).
  - by rewrite lookup_empty.
  - intros i x m' r Hi IH. destruct (decide (i = key)) as [->|Hne].
    + rewrite lookup_insert_eq. rewrite Hi in IH.
      destruct x; simpl; try done.
      destruct (config_args !! key); [by rewrite lookup_insert_eq | done].
    + rewrite (lookup_insert_ne m') by done.
      destruct (is_None x); [|done].
      destruct (config_args !! i); [by rewrite lookup_insert_ne | done].
Qed.

Lemma fill_unset_lookup config_args args (key : string) :
  fill_unset config_args args !! key =
    match args !! key with
    | Some VNone => Some (default VNone (config_args !! key))
    | other => other
    end.
Proof.
  unfold fill_unset. rewrite fill_unset_fold.
  destruct (args !! key) as [[]|] eqn:E; try done.
  by destruct (config_args !! key).
Qed.

(** The arguments after the optional local file has been applied. *)
Lemma main_config_no_file fs args c :
  args !! "config" = Some c → truthy c = false →
  main_config fs args = inr (fill_unset ∅ (local_layer fs args)).
Proof.
  intros Hc Ht. unfold main_config, getattr. rewrite Hc. simpl. by rewrite Ht.
Qed.

Lemma main_config_file fs args p config_args :
  args !! "config" = Some (VStr p) → p ≠ "" → fs !! p = Some config_args →
  main_config fs args =
    inr (fill_unset config_args (local_layer fs (setattr_items config_args args))).
Proof.
  intros Hc Hp Hf. unfold main_config, getattr. rewrite Hc. simpl.
  destruct (String.eqb_spec p "") as [->|_]; [done|]. simpl. by rewrite Hf.
Qed.


(** With no local file, a key of the user's file resolves to the value the
    file gives it, whatever the command line held for that key. *)
Lemma main_config_user_file_wins (fs : files) (args : Namespace) (p : string)
    (config_args : gmap string value) (key : string) (v : value) :
  args !! "config" = Some (VStr p) → p ≠ "" → fs !! p = Some config_args →
  fs !! local_conf_path = None →
  config_args !! key = Some v →
  ∃ resolved, main_config fs args = inr resolved ∧ resolved !! key = Some v.
Proof.
  intros Hc Hp Hf Hl Hk. eexists. split; [by apply (main_config_file fs args p config_args)|].
  rewrite fill_unset_lookup. unfold local_layer. rewrite Hl.
  rewrite setattr_items_lookup, Hk. destruct v; by rewrite ?Hk.
Qed.

(** C1, evaluated on the code: the local file is absent, the command line
    gives [train_bs] the value 64 and the user's file gives it 32; the
    resolved configuration holds 32, not the value of the command line. *)
Theorem C1_user_file_replaces_cli_value :
  user_file_only !! local_conf_path = None ∧
  cli_train_bs_64 !! "train_bs" = Some (VInt 64) ∧
  ∃ resolved,
    main_config user_file_only cli_train_bs_64 = inr resolved ∧
    resolved !! "train_bs" = Some (VInt 32) ∧
    resolved !! "train_bs" ≠ Some (VInt 64).
Proof.
  split; [vm_compute; reflexivity|]. split; [vm_compute; reflexivity|].
  destruct (main_config_user_file_wins user_file_only cli_train_bs_64
              "config.yaml" {[ "train_bs" := VInt 32 ]} "train_bs" (VInt 32))
    as (resolved & Hr & Hk);
    [vm_compute; reflexivity | done | vm_compute; reflexivity
    | vm_compute; reflexivity | vm_compute; reflexivity |].
  exists resolved. rewrite Hk. by repeat split.
Qed.

(** An option that the local file sets to [None] falls back, in the last
    pass, to the value of the user's file when that file has the option. *)
Lemma main_config_local_None_falls_back (fs : files) (args : Namespace) (p : string)
    (config_args local_config_args : gmap string value) (key : string) (v : value) :
  args !! "config" = Some (VStr p) → p ≠ "" → fs !! p = Some config_args →
  fs !! local_conf_path = Some local_config_args →
  local_config_args !! key = Some VNone →
  config_args !! key = Some v →
  ∃ resolved, main_config fs args = inr resolved ∧ resolved !! key = Some v.
Proof.
  intros Hc Hp Hf Hl Hk Hv. eexists.
  split; [by apply (main_config_file fs args p config_args)|].
  rewrite fill_unset_lookup. unfold local_layer.
  by rewrite Hl, setattr_items_lookup, Hk, Hv.
Qed.

(** C3 as written fails: the local file exists and sets [train_bs] to
    [None], the user's file gives it 32; the resolved value is the one of
    the user's file, not the one of the local file. *)
Lemma C3_local_None_does_not_overwrite :
  user_and_null_local_file !! local_conf_path = Some {[ "train_bs" := VNone ]} ∧
  ∃ resolved,
    main_config user_and_null_local_file cli_train_bs_64 = inr resolved ∧
    resolved !! "train_bs" = Some (VInt 32) ∧
    resolved !! "train_bs" ≠ Some VNone.
Proof.
  split; [vm_compute; reflexivity|].
  destruct (main_config_local_None_falls_back user_and_null_local_file cli_train_bs_64
              "config.yaml" {[ "train_bs" := VInt 32 ]} {[ "train_bs" := VNone ]}
              "train_bs" (VInt 32))
    as (resolved & Hr & Hk);
    [vm_compute; reflexivity | done | vm_compute; reflexivity
    | vm_compute; reflexivity | vm_compute; reflexivity | vm_compute; reflexivity |].
  exists resolved. rewrite Hk. by repeat split.
Qed.

(** C3, amended: when the local file exists, each option it gives a value
    other than [None] has that value in the resolved configuration, whatever
    the user's file and the command line hold for it; an option it gives
    [None] resolves to the value of the user's file when that file has the
    option, and to [None] otherwise. *)
Theorem C3_local_file_overwrites (fs : files) (args : Namespace)
    (local_config_args : gmap string value) (key : string) (v : value) :
  config_readable fs args →
  fs !! local_conf_path = Some local_config_args →
  local_config_args !! key = Some v →
  ∃ resolved,
    main_config fs args = inr resolved ∧
    (v ≠ VNone → resolved !! key = Some v) ∧
    (v = VNone → resolved !! key = Some (default VNone (file_layer fs args !! key))).
Proof.
  intros (c & Hc & Hread) Hl Hk.
  assert (∀ config_args a,
             file_layer fs args = config_args →
             (v ≠ VNone → fill_unset config_args (local_layer fs a) !! key = Some v) ∧
             (v = VNone →
              fill_unset config_args (local_layer fs a) !! key =
                Some (default VNone (file_layer fs args !! key))))
    as Hfill.
  { intros config_args a ->. rewrite fill_unset_lookup. unfold local_layer.
    rewrite Hl, setattr_items_lookup, Hk. split; [by destruct v | by intros ->]. }
  destruct Hread as [Hfalse | (p & -> & [config_args Hf])].
  - eexists. split; [by apply (main_config_no_file fs args c)|].
    apply Hfill. unfold file_layer. by rewrite Hc, Hfalse.
  - destruct (decide (p = "")) as [->|Hp].
    + eexists. split; [by apply (main_config_no_file fs args (VStr ""))|].
      apply Hfill. unfold file_layer. by rewrite Hc.
    + eexists. split; [by apply (main_config_file fs args p config_args)|].
      apply Hfill. unfold file_layer. rewrite Hc. simpl.
      destruct (String.eqb_spec p "") as [->|_]; [done|]. simpl. by rewrite Hf.
Qed.

Lemma C3_local_file_overwrites_witness :
  ∃ resolved,
    main_config user_and_local_file cli_train_bs_64 = inr resolved ∧
    resolved !! "train_bs" = Some (VInt 128).
Proof.
  destruct (C3_local_file_overwrites user_and_local_file cli_train_bs_64
              {[ "train_bs" := VInt 128 ]} "train_bs" (VInt 128))
    as (resolved & Hresolved & Hset & _).
  - exists (VStr "config.yaml"). split; [vm_compute; reflexivity|].
    right. exists "config.yaml". split; [done|].
    exists {[ "train_bs" := VInt 32 ]}. vm_compute; reflexivity.
  - vm_compute; reflexivity.
  - vm_compute; reflexivity.
  - exists resolved. split; [done|]. by apply Hset.
Defined.

End ConfigLayers.

Section Orchestration.

Implicit Types (self : TrainHandler) (l : loader).

(** C2 as written fails: with no training loader, no validation loader and
    [train_loader_only] not requested, [train] raises nothing; it returns
    without having called the trainer. *)
Lemma C2_no_loaders_no_error :
  train_dataloader (data_module handler_without_loaders) = None ∧
  val_dataloader (data_module handler_without_loaders) = None ∧
  truthy (train_loader_only handler_without_loaders) = false ∧
  exec (train handler_without_loaders) = (inr tt, []) ∧
  (∀ e, fst (exec (train handler_without_loaders)) ≠ inl e).
Proof. by repeat split. Qed.

(** C2, amended: [train] raises the documented [ValueError] exactly when a
    training loader exists, no validation loader exists and
    [train_loader_only] is not requested.  With a training loader it
    otherwise calls [fit] once: with both loaders when [train_loader_only]
    is false and a validation loader exists, with the training loader alone
    when [train_loader_only] is true.  Without a training loader it returns
    and calls nothing. *)
Theorem C2_train_outcomes self :
  (∀ e, fst (exec (train self)) = inl e ↔
        e = ValueError msg_no_validation ∧
        is_Some (train_dataloader (data_module self)) ∧
        val_dataloader (data_module self) = None ∧
        truthy (train_loader_only self) = false) ∧
  (∀ t v, train_dataloader (data_module self) = Some t →
          val_dataloader (data_module self) = Some v →
          truthy (train_loader_only self) = false →
          exec (train self) = (inr tt, [trainer_fit (self_model self) t (Some v)])) ∧
  (∀ t, train_dataloader (data_module self) = Some t →
        truthy (train_loader_only self) = true →
        exec (train self) = (inr tt, [trainer_fit (self_model self) t None])) ∧
  (train_dataloader (data_module self) = None →
   exec (train self) = (inr tt, [])).
Proof.
  unfold exec, train, lift, raise.
  destruct (train_dataloader (data_module self)) as [t|];
    destruct (val_dataloader (data_module self)) as [v|];
    destruct (truthy (train_loader_only self)); simpl;
    (split; [intros e; split; [intros; simplify_eq | intros (-> & [? ?] & ? & ?); simplify_eq]|]);
    repeat split; intros; simplify_eq; eauto.
Qed.

Lemma C2_train_outcomes_witness :
  fst (exec (train (handler_with (Some (Loader 1)) None None (VBool false))))
    = inl (ValueError msg_no_validation)
  ∧ exec (train (handler_with (Some (Loader 1)) (Some (Loader 2)) None (VBool false)))
    = (inr tt, [trainer_fit some_model (Loader 1) (Some (Loader 2))])
  ∧ exec (train (handler_with (Some (Loader 1)) None None (VBool true)))
    = (inr tt, [trainer_fit some_model (Loader 1) None])
  ∧ exec (train handler_without_loaders) = (inr tt, []).
Proof.
  split; [|split; [|split]].
  - apply (proj1 (C2_train_outcomes (handler_with (Some (Loader 1)) None None (VBool false)))).
    repeat split. by exists (Loader 1).
  - by apply (proj1 (proj2 (C2_train_outcomes
                 (handler_with (Some (Loader 1)) (Some (Loader 2)) None (VBool false))))
               (Loader 1) (Loader 2)).
  - by apply (proj1 (proj2 (proj2 (C2_train_outcomes
                 (handler_with (Some (Loader 1)) None None (VBool true)))))
               (Loader 1)).
  - by apply (proj2 (proj2 (proj2 (C2_train_outcomes handler_without_loaders)))).
Defined.

(** C8: without a test loader [test] logs its note and returns; with one it
    calls [trainer.test] on that loader with [ckpt_path='best']. *)
Theorem C8_test_outcomes self :
  (test_dataloader (data_module self) = None →
   exec (test self) = (inr tt, [logging_info MsgNoTestDataloader])) ∧
  (∀ l, test_dataloader (data_module self) = Some l →
        exec (test self) = (inr tt, [trainer_test (self_model self) (Some l) "best"])).
Proof.
  unfold exec, test. split.
  - by intros ->.
  - by intros l ->.
Qed.

Lemma C8_test_outcomes_witness :
  exec (test handler_without_loaders) = (inr tt, [logging_info MsgNoTestDataloader])
  ∧ exec (test (handler_with None None (Some (Loader 3)) (VBool false)))
    = (inr tt, [trainer_test some_model (Some (Loader 3)) "best"]).
Proof.
  split.
  - by apply (proj1 (C8_test_outcomes handler_without_loaders)).
  - by apply (proj2 (C8_test_outcomes (handler_with None None (Some (Loader 3)) (VBool false)))
               (Loader 3)).
Defined.

End Orchestration.

Section ModelSelection.

Implicit Types (model_arch model_type : string).

Lemma lower_is_endovit model_arch :
  (lower model_arch =? "endovit") = caseless_eqb model_arch "endovit".
Proof. by apply lower_eqb_caseless. Qed.

Lemma VStr_eq_decide {A} (s t : string) (x y : A) :
  (if decide (VStr s = VStr t) then x else y) = (if s =? t then x else y).
Proof.
  destruct (String.eqb_spec s t) as [->|Hne].
  - by rewrite decide_True.
  - rewrite decide_False; [done|]. by intros [= ?].
Qed.

Lemma selector_cases model_arch model_type :
  __get_model_cls (VStr model_arch) (VStr model_type) =
    if model_type =? "seer" then inr RegNetY
    else if (model_type =? "endovit") || (lower model_arch =? "endovit") then inr EndoViT
    else if model_type =? "timm" then inr TimmModel
    else inl (ValueError ("Model type " +:+ model_type +:+ " is not supported.")).
Proof.
  unfold __get_model_cls. rewrite !VStr_eq_decide.
  destruct (model_type =? "seer"); [done|].
  destruct (model_type =? "endovit"); simpl; [done|].
  destruct (lower model_arch =? "endovit"); [done|].
  by destruct (model_type =? "timm").
Qed.

(** C4: on strings the selector follows the three tests in their order:
    [model_type] equal to ["seer"] gives [RegNetY]; otherwise [model_type]
    equal to ["endovit"], or [model_arch] equal to ["endovit"] up to case,
    gives [EndoViT]; otherwise [model_type] equal to ["timm"] gives
    [TimmModel].  The tests on [model_type] are exact, only the one on
    [model_arch] disregards case. *)
Theorem C4_model_selector_order model_arch model_type :
  __get_model_cls (VStr model_arch) (VStr model_type) =
    if model_type =? "seer" then inr RegNetY
    else if (model_type =? "endovit") || caseless_eqb model_arch "endovit" then inr EndoViT
    else if model_type =? "timm" then inr TimmModel
    else inl (ValueError ("Model type " +:+ model_type +:+ " is not supported.")).
Proof.
  by rewrite selector_cases, lower_is_endovit.
Qed.

(** The example of the claim, and three that show which tests are exact. *)
Example timm_with_ENDOVIT_arch :
  __get_model_cls (VStr "ENDOVIT") (VStr "timm") = inr EndoViT.
Proof. reflexivity. Qed.

Example endovit_with_any_arch :
  __get_model_cls (VStr "anything") (VStr "endovit") = inr EndoViT.
Proof. reflexivity. Qed.

Example seer_before_endovit_arch :
  __get_model_cls (VStr "EndoViT") (VStr "seer") = inr RegNetY.
Proof. reflexivity. Qed.

Example model_type_is_case_sensitive :
  __get_model_cls (VStr "resnet50") (VStr "Seer")
    = inl (ValueError "Model type Seer is not supported.")
  ∧ __get_model_cls (VStr "resnet50") (VStr "ENDOVIT")
    = inl (ValueError "Model type ENDOVIT is not supported.")
  ∧ __get_model_cls (VStr "resnet50") (VStr "TIMM")
    = inl (ValueError "Model type TIMM is not supported.").
Proof. by repeat split. Qed.

(** C9: a [model_type] that is none of ["seer"], ["endovit"], ["timm"],
    with a [model_arch] that is not ["endovit"] up to case, makes the
    selector raise a [ValueError] whose message names that [model_type]. *)
Theorem C9_unsupported_model_type model_arch model_type :
  model_type ≠ "seer" → model_type ≠ "endovit" → model_type ≠ "timm" →
  caseless_eqb model_arch "endovit" = false →
  ∃ msg,
    __get_model_cls (VStr model_arch) (VStr model_type) = inl (ValueError msg) ∧
    msg = "Model type " +:+ model_type +:+ " is not supported." ∧
    embeds model_type msg.
Proof.
  intros H1%String.eqb_neq H2%String.eqb_neq H3%String.eqb_neq Harch.
  eexists. rewrite selector_cases, lower_is_endovit, H1, H2, H3, Harch. simpl.
  split; [done|]. split; [done|]. apply embeds_middle.
Qed.

Lemma C9_unsupported_model_type_witness :
  ∃ msg,
    __get_model_cls (VStr "resnet50") (VStr "unsupported") = inl (ValueError msg) ∧
    msg = "Model type unsupported is not supported." ∧
    embeds "unsupported" msg.
Proof.
  by apply (C9_unsupported_model_type "resnet50" "unsupported").
Defined.

End ModelSelection.

Section Preparations.

Implicit Types (config args : Namespace) (tr : list call).

(** A root that is not empty and has no final separator is joined to a
    relative name with one separator. *)
Lemma os_path_join_plain (root name : string) :
  root ≠ "" → ends_with_sep root = false → starts_with_sep name = false →
  os_path_join root name = root +:+ "/" +:+ name.
Proof.
  intros Hroot%String.eqb_neq Hend Hname. unfold os_path_join.
  by rewrite Hname, Hroot, Hend.
Qed.

(** [__preparations] seeds, creates the directory and returns the three
    callbacks, the first being [checkpoint_of]. *)
Lemma preparations_exec (wrun : wandb_run) (timestamp : string) config
    (seed metric verbose : value) (root : string) :
  config !! "seed" = Some seed → config !! "metric" = Some metric →
  config !! "checkpoint_dir" = Some (VStr root) → config !! "verbose" = Some verbose →
  exec (__preparations wrun timestamp config) =
    (inr [CheckpointCallback (checkpoint_of wrun timestamp root metric verbose);
          ModelSummary 0; LearningRateMonitor "epoch"],
     [seed_everything seed;
      os_makedirs (dirpath (checkpoint_of wrun timestamp root metric verbose)) true]).
Proof.
  intros Hseed Hmetric Hroot Hverbose.
  unfold exec, __preparations, mbind, M_bind, lift, emit, getattr, mret, M_ret.
  rewrite Hseed, Hmetric, Hroot, Hverbose.
  unfold checkpoint_of.
  destruct (sweep_given (sweep_id wrun)); simpl; [|done].
  by rewrite append_assoc.
Qed.

(** C5: the checkpoint policy.  With a sweep id the directory is
    [sweep-<sweep_id>] inside the checkpoint root and the file name template
    holds the run name and the metric; otherwise the directory is
    [run-<timestamp>-<run_name>] inside the root and the template begins
    with [best_epoch].  In both cases the directory is created, one
    checkpoint is kept ([save_top_k=1]) and the monitored metric is
    maximised. *)
Theorem C5_checkpoint_policy (wrun : wandb_run) (timestamp : string) config
    (seed metric verbose : value) (root : string) :
  config !! "seed" = Some seed → config !! "metric" = Some metric →
  config !! "checkpoint_dir" = Some (VStr root) → config !! "verbose" = Some verbose →
  ∃ cb,
    exec (__preparations wrun timestamp config) =
      (inr [CheckpointCallback cb; ModelSummary 0; LearningRateMonitor "epoch"],
       [seed_everything seed; os_makedirs (dirpath cb) true]) ∧
    (∀ id, sweep_id wrun = Some id → id ≠ "" →
       dirpath cb = os_path_join root ("sweep-" +:+ id) ∧
       embeds (run_name wrun) (filename cb) ∧
       embeds (str metric) (filename cb)) ∧
    (sweep_id wrun = None ∨ sweep_id wrun = Some "" →
       dirpath cb = os_path_join root ("run-" +:+ timestamp +:+ "-" +:+ run_name wrun) ∧
       begins_with "best_epoch" (filename cb)) ∧
    save_top_k cb = 1%Z ∧ mode cb = mode_max ∧ monitor cb = metric.
Proof.
  intros Hseed Hmetric Hroot Hverbose.
  exists (checkpoint_of wrun timestamp root metric verbose).
  split; [by apply (preparations_exec wrun timestamp config seed)|].
  unfold checkpoint_of. simpl. split; [|split; [|done]].
  - intros id -> Hid%String.eqb_neq. simpl. rewrite Hid. simpl.
    split; [done|]. split; [apply embeds_front | apply embeds_middle].
  - intros [-> | ->]; simpl; (split; [done|]); by eexists.
Qed.

Lemma C5_checkpoint_policy_witness :
  ∃ cb,
    exec (__preparations sweep_run "20240101_000000" sample_config) =
      (inr [CheckpointCallback cb; ModelSummary 0; LearningRateMonitor "epoch"],
       [seed_everything (VInt 42); os_makedirs (dirpath cb) true]) ∧
    (∀ id, sweep_id sweep_run = Some id → id ≠ "" →
       dirpath cb = os_path_join "checkpoints" ("sweep-" +:+ id) ∧
       embeds (run_name sweep_run) (filename cb) ∧
       embeds (str (VStr "val_AUC_macro")) (filename cb)) ∧
    (sweep_id sweep_run = None ∨ sweep_id sweep_run = Some "" →
       dirpath cb = os_path_join "checkpoints"
                      ("run-" +:+ "20240101_000000" +:+ "-" +:+ run_name sweep_run) ∧
       begins_with "best_epoch" (filename cb)) ∧
    save_top_k cb = 1%Z ∧ mode cb = mode_max ∧ monitor cb = VStr "val_AUC_macro".
Proof.
  apply (C5_checkpoint_policy sweep_run "20240101_000000" sample_config
           (VInt 42) (VStr "val_AUC_macro") (VBool false) "checkpoints");
    by vm_compute.
Defined.

(** The two directories of the specification's examples. *)
Example sweep_directory :
  fst (exec (__preparations sweep_run "20240101_000000" sample_config)) =
    inr [CheckpointCallback
           {| dirpath := "checkpoints/sweep-s1";
              filename := "foo_epoch{epoch:02d}_val_AUC_macro{val_AUC_macro:.2f}";
              save_top_k := 1; save_weights_only := false; mode := mode_max;
              monitor := VStr "val_AUC_macro"; verbose := VBool false;
              auto_insert_metric_name := false |};
         ModelSummary 0; LearningRateMonitor "epoch"].
Proof. by vm_compute. Qed.

Example run_directory :
  fst (exec (__preparations single_run "20240101_000000" sample_config)) =
    inr [CheckpointCallback
           {| dirpath := "checkpoints/run-20240101_000000-foo";
              filename := "best_epoch{epoch:02d}_val_AUC_macro{val_AUC_macro:.2f}";
              save_top_k := 1; save_weights_only := false; mode := mode_max;
              monitor := VStr "val_AUC_macro"; verbose := VBool false;
              auto_insert_metric_name := false |};
         ModelSummary 0; LearningRateMonitor "epoch"].
Proof. by vm_compute. Qed.

End Preparations.

Section BatchSizes.

Implicit Types (args : Namespace) (gpu : cuda) (tr : list call).

Lemma log_devices_trace (i : nat) (ds : list (string * N)) tr :
  log_devices i ds tr = (inr tt, (tr ++ device_lines i ds)%list).
Proof.
  revert i tr. induction ds as [|[name total_memory] ds IH]; intros i tr; simpl.
  - by rewrite app_nil_r.
  - unfold mbind, M_bind, emit. rewrite IH. by rewrite <- app_assoc.
Qed.

(** What [__get_batch_size] returns and the calls it makes. *)
Lemma get_batch_size_exec gpu args (a b : value) :
  args !! "train_bs" = Some a → args !! "val_bs" = Some b →
  exec (__get_batch_size gpu args) =
    (inr (chosen_bs a, chosen_bs b),
     (gpu_report gpu ++
      [logging_info (MsgBatchSizes (chosen_bs a) (chosen_bs b));
       wandb_config_update (chosen_bs a) (chosen_bs b) true])%list).
Proof.
  intros Ha Hb.
  unfold exec, __get_batch_size, gpu_report, mbind, M_bind, lift, getattr.
  rewrite Ha, Hb.
  destruct (is_available gpu).
  - rewrite log_devices_trace. simpl. unfold emit. simpl. by rewrite <- app_assoc.
  - done.
Qed.

(** C6: the batch sizes are 64 and 64 unless [train_bs], [val_bs] are
    supplied (hold a value that Python takes as true), which then replace
    them; what [torch.cuda] reports is logged and changes neither size: any
    two accelerator states give the same sizes. *)
Theorem C6_batch_sizes gpu args (a b : value) :
  args !! "train_bs" = Some a → args !! "val_bs" = Some b →
  fst (exec (__get_batch_size gpu args)) =
    inr (if truthy a then a else VInt 64, if truthy b then b else VInt 64)
  ∧ (∀ gpu', fst (exec (__get_batch_size gpu' args)) =
             fst (exec (__get_batch_size gpu args)))
  ∧ (∃ sizes, snd (exec (__get_batch_size gpu args)) = (gpu_report gpu ++ sizes)%list).
Proof.
  intros Ha Hb. split; [|split].
  - by rewrite (get_batch_size_exec gpu args a b).
  - intros gpu'.
    by rewrite (get_batch_size_exec gpu args a b), (get_batch_size_exec gpu' args a b).
  - eexists. by rewrite (get_batch_size_exec gpu args a b).
Qed.

Lemma C6_batch_sizes_witness :
  fst (exec (__get_batch_size two_gpus explicit_sizes)) = inr (VInt 32, VInt 16)
  ∧ (∀ gpu', fst (exec (__get_batch_size gpu' explicit_sizes)) =
             fst (exec (__get_batch_size two_gpus explicit_sizes)))
  ∧ (∃ sizes, snd (exec (__get_batch_size two_gpus explicit_sizes)) =
              (gpu_report two_gpus ++ sizes)%list).
Proof.
  apply (C6_batch_sizes two_gpus explicit_sizes (VInt 32) (VInt 16)); by vm_compute.
Defined.

(** C10: a [train_bs] or [val_bs] that holds 0 or [None] counts as not
    supplied: that size is 64. *)
Theorem C10_falsy_batch_size gpu args (a b : value) :
  args !! "train_bs" = Some a → args !! "val_bs" = Some b →
  ∃ train_bs val_bs,
    fst (exec (__get_batch_size gpu args)) = inr (train_bs, val_bs) ∧
    (a = VInt 0 ∨ a = VNone → train_bs = VInt 64) ∧
    (b = VInt 0 ∨ b = VNone → val_bs = VInt 64).
Proof.
  intros Ha Hb. exists (chosen_bs a), (chosen_bs b).
  split; [by rewrite (get_batch_size_exec gpu args a b)|].
  split; by intros [-> | ->].
Qed.

Lemma C10_falsy_batch_size_witness :
  ∃ train_bs val_bs,
    fst (exec (__get_batch_size two_gpus sample_config)) = inr (train_bs, val_bs) ∧
    train_bs = VInt 64 ∧ val_bs = VInt 64.
Proof.
  destruct (C10_falsy_batch_size two_gpus sample_config (VInt 0) VNone)
    as (train_bs & val_bs & Hexec & Htrain & Hval); [by vm_compute | by vm_compute |].
  exists train_bs, val_bs. split; [done|].
  split; [apply Htrain; by left | apply Hval; by right].
Defined.

Example falsy_sizes_resolve_to_64 :
  exec (__get_batch_size two_gpus sample_config) =
    (inr (VInt 64, VInt 64),
     [logging_info (MsgGpu 0 "A100" 42949672960);
      logging_info (MsgGpu 1 "A100" 42949672960);
      logging_info (MsgBatchSizes (VInt 64) (VInt 64));
      wandb_config_update (VInt 64) (VInt 64) true]).
Proof. by vm_compute. Qed.

End BatchSizes.

Section PretrainedCheckpoint.

Implicit Types (config : Namespace).

(** What [__get_checkpoint_path] returns when the two options are strings
    or [None]. *)
Lemma get_checkpoint_path_cases config :
  str_or_None (getattr_or_None config "checkpoint_filename") →
  str_or_None (getattr_or_None config "pretrained_checkpoint_dir") →
  __get_checkpoint_path config =
    inr (match getattr_or_None config "checkpoint_filename",
               getattr_or_None config "pretrained_checkpoint_dir" with
         | VStr f, VStr d =>
             if negb (f =? "") && negb (d =? "") then VStr (os_path_join d f) else VNone
         | _, _ => VNone
         end).
Proof.
  unfold __get_checkpoint_path.
  destruct (getattr_or_None config "checkpoint_filename") as [| |?|f];
    destruct (getattr_or_None config "pretrained_checkpoint_dir") as [| |?|d];
    simpl; try done.
  - by destruct (f =? "").
  - by destruct (f =? ""), (d =? "").
Qed.

(** C7: the checkpoint path, which [__prepare_model] hands to the model
    constructor, is not [None] if and only if both a checkpoint file name
    and a pretrained-checkpoint directory are configured; it is then the
    path join of the directory and the file name, and [None] otherwise. *)
Theorem C7_checkpoint_path config :
  str_or_None (getattr_or_None config "checkpoint_filename") →
  str_or_None (getattr_or_None config "pretrained_checkpoint_dir") →
  ∃ checkpoint_path,
    __get_checkpoint_path config = inr checkpoint_path ∧
    (checkpoint_path ≠ VNone ↔
       configured config "checkpoint_filename" ∧
       configured config "pretrained_checkpoint_dir") ∧
    (checkpoint_path ≠ VNone →
       ∃ f d, config !! "checkpoint_filename" = Some (VStr f) ∧
              config !! "pretrained_checkpoint_dir" = Some (VStr d) ∧
              checkpoint_path = VStr (os_path_join d f)) ∧
    (∀ m, __prepare_model config = inr m → model_checkpoint_path m = checkpoint_path).
Proof.
  intros Hf Hd. eexists. split; [by apply get_checkpoint_path_cases|].
  assert (∀ m, __prepare_model config = inr m →
               __get_checkpoint_path config = inr (model_checkpoint_path m)) as Hm.
  { intros m. unfold __prepare_model.
    destruct (__get_checkpoint_path config) as [e|p]; simpl; [done|].
    destruct (getattr config "model_arch") as [e|a]; simpl; [done|].
    destruct (getattr config "model_type") as [e|t]; simpl; [done|].
    destruct (__get_model_cls a t) as [e|c]; simpl; [done|].
    by intros [= <-]. }
  split; [|split].
  - unfold configured, getattr_or_None in *.
    destruct (config !! "checkpoint_filename") as [[| |?|f]|];
      destruct (config !! "pretrained_checkpoint_dir") as [[| |?|d]|];
      simpl in *; try done; try (split; [done | by intros [? ?]]).
    destruct (f =? ""), (d =? ""); simpl; split; try done; by intros [? ?].
  - unfold getattr_or_None in *.
    destruct (config !! "checkpoint_filename") as [[| |?|f]|];
      destruct (config !! "pretrained_checkpoint_dir") as [[| |?|d]|];
      simpl in *; try done.
    destruct (f =? ""), (d =? ""); simpl; try done. intros _. by exists f, d.
  - intros m Hprep. apply Hm in Hprep.
    rewrite (get_checkpoint_path_cases config Hf Hd) in Hprep. by injection Hprep.
Qed.

Lemma C7_checkpoint_path_witness :
  ∃ checkpoint_path,
    __get_checkpoint_path sample_config = inr checkpoint_path ∧
    (checkpoint_path ≠ VNone ↔
       configured sample_config "checkpoint_filename" ∧
       configured sample_config "pretrained_checkpoint_dir") ∧
    (checkpoint_path ≠ VNone →
       ∃ f d, sample_config !! "checkpoint_filename" = Some (VStr f) ∧
              sample_config !! "pretrained_checkpoint_dir" = Some (VStr d) ∧
              checkpoint_path = VStr (os_path_join d f)) ∧
    (∀ m, __prepare_model sample_config = inr m →
          model_checkpoint_path m = checkpoint_path).
Proof.
  apply (C7_checkpoint_path sample_config); by vm_compute.
Defined.

Example checkpoint_path_of_sample :
  __get_checkpoint_path sample_config = inr (VStr "pretrained/last.ckpt")
  ∧ __prepare_model sample_config = inr (Model RegNetY (VStr "pretrained/last.ckpt")).
Proof. split; by vm_compute. Qed.

Example checkpoint_path_without_directory :
  __get_checkpoint_path {[ "checkpoint_filename" := VStr "last.ckpt" ]} = inr VNone.
Proof. by vm_compute. Qed.

End PretrainedCheckpoint.

(** * Further properties of the code *)

Section ConfigResolution.

Implicit Types (args : Namespace) (fs : files).

Lemma file_layer_unset fs args c :
  args !! "config" = Some c → truthy c = false → file_layer fs args = ∅.
Proof. intros Hc Ht. unfold file_layer. by rewrite Hc, Ht. Qed.

Lemma file_layer_named fs args p config_args :
  args !! "config" = Some (VStr p) → p ≠ "" → fs !! p = Some config_args →
  file_layer fs args = config_args.
Proof.
  intros Hc Hp Hf. unfold file_layer. rewrite Hc. simpl.
  destruct (String.eqb_spec p "") as [->|_]; [done|]. simpl. by rewrite Hf.
Qed.

(** How the three layers compose, option by option: the local file goes
    before the user's file, which goes before the command line, and a
    [None] that comes out of this is replaced by the value of the user's
    file. *)
Lemma main_config_lookup fs args :
  config_readable fs args →
  ∃ resolved,
    main_config fs args = inr resolved ∧
    ∀ key : string,
      resolved !! key =
        match
          match local_overrides fs !! key with
          | Some v => Some v
          | None =>
              match file_layer fs args !! key with
              | Some v => Some v
              | None => args !! key
              end
          end
        with
        | Some VNone => Some (default VNone (file_layer fs args !! key))
        | other => other
        end.
Proof.
  intros (c & Hc & Hread).
  assert (∀ config_args a,
             file_layer fs args = config_args →
             (∀ key : string, a !! key = match config_args !! key with
                                         | Some v => Some v
                                         | None => args !! key
                                         end) →
             ∀ key : string,
               fill_unset config_args (local_layer fs a) !! key =
                 match
                   match local_overrides fs !! key with
                   | Some v => Some v
                   | None =>
                       match file_layer fs args !! key with
                       | Some v => Some v
                       | None => args !! key
                       end
                   end
                 with
                 | Some VNone => Some (default VNone (file_layer fs args !! key))
                 | other => other
                 end) as Hall.
  { intros config_args a -> Ha key. rewrite fill_unset_lookup.
    unfold local_layer, local_overrides.
    destruct (fs !! local_conf_path) as [local_config_args|]; simpl.
    - by rewrite setattr_items_lookup, Ha.
    - by rewrite lookup_empty, Ha. }
  destruct Hread as [Hfalse | (p & -> & [config_args Hf])].
  - eexists. split; [by apply (main_config_no_file fs args c)|].
    apply Hall; [by apply (file_layer_unset fs args c)|].
    intros key. by rewrite lookup_empty.
  - destruct (decide (p = "")) as [->|Hp].
    + eexists. split; [by apply (main_config_no_file fs args (VStr ""))|].
      apply Hall; [by apply (file_layer_unset fs args (VStr ""))|].
      intros key. by rewrite lookup_empty.
    + eexists. split; [by apply (main_config_file fs args p config_args)|].
      apply Hall; [by apply (file_layer_named fs args p config_args)|].
      intros key. apply setattr_items_lookup.
Qed.



(** X2: when the local file does not exist, the resolved configuration is
    the user's file laid over the command line, and the last pass changes
    nothing: with no user's file either, [main] leaves the arguments as
    they are. *)
Theorem main_config_without_local_file fs args :
  config_readable fs args → fs !! local_conf_path = None →
  main_config fs args = inr (file_layer fs args ∪ args).
Proof.
  intros Hread Hlocal.
  destruct (main_config_lookup fs args Hread) as (resolved & -> & Hlookup).
  f_equal. apply map_eq. intros key. rewrite Hlookup, lookup_union.
  unfold local_overrides. rewrite Hlocal. simpl. rewrite lookup_empty.
  destruct (file_layer fs args !! key) as [[]|] eqn:Hfile;
    destruct (args !! key) as [[]|]; by rewrite ?Hfile.
Qed.

Lemma main_config_without_local_file_witness :
  main_config user_file_only cli_train_bs_64
    = inr (file_layer user_file_only cli_train_bs_64 ∪ cli_train_bs_64).
Proof.
  apply (main_config_without_local_file user_file_only cli_train_bs_64).
  - exists (VStr "config.yaml"). split; [vm_compute; reflexivity|].
    right. exists "config.yaml". split; [done|].
    exists {[ "train_bs" := VInt 32 ]}. vm_compute; reflexivity.
  - vm_compute; reflexivity.
Defined.

(** X3: the resolved configuration has the options of the command line and
    those of the two files, no more and no fewer: no option is dropped, and
    a key of a file that the parser does not know becomes an option. *)
Theorem main_config_options fs args :
  config_readable fs args →
  ∃ resolved,
    main_config fs args = inr resolved ∧
    dom resolved = dom args ∪ dom (file_layer fs args) ∪ dom (local_overrides fs).
Proof.
  intros Hread.
  destruct (main_config_lookup fs args Hread) as (resolved & Hres & Hlookup).
  exists resolved. split; [done|].
  apply set_eq. intros key.
  rewrite !elem_of_union, !elem_of_dom, Hlookup.
  destruct (local_overrides fs !! key) as [[]|];
    destruct (file_layer fs args !! key) as [[]|];
    destruct (args !! key) as [[]|]; simpl;
    split; intros H; eauto;
    repeat match goal with
           | H : _ ∨ _ |- _ => destruct H
           | H : is_Some None |- _ => by destruct H
           end.
Qed.

Lemma main_config_options_witness :
  ∃ resolved,
    main_config user_and_local_file cli_train_bs_64 = inr resolved ∧
    dom resolved = dom cli_train_bs_64
                   ∪ dom (file_layer user_and_local_file cli_train_bs_64)
                   ∪ dom (local_overrides user_and_local_file).
Proof.
  apply (main_config_options user_and_local_file cli_train_bs_64).
  exists (VStr "config.yaml"). split; [vm_compute; reflexivity|].
  right. exists "config.yaml". split; [done|].
  exists {[ "train_bs" := VInt 32 ]}. vm_compute; reflexivity.
Defined.

(** X4: an option that neither file mentions keeps the value of the command
    line, [None] included. *)
Theorem main_config_keeps_unmentioned fs args (key : string) :
  config_readable fs args →
  file_layer fs args !! key = None → local_overrides fs !! key = None →
  ∃ resolved, main_config fs args = inr resolved ∧ resolved !! key = args !! key.
Proof.
  intros Hread Hfile Hlocal.
  destruct (main_config_lookup fs args Hread) as (resolved & Hres & Hlookup).
  exists resolved. split; [done|].
  rewrite Hlookup, Hlocal, Hfile. by destruct (args !! key) as [[]|].
Qed.

Lemma main_config_keeps_unmentioned_witness :
  ∃ resolved,
    main_config user_and_local_file cli_train_bs_64 = inr resolved ∧
    resolved !! "config" = cli_train_bs_64 !! "config".
Proof.
  apply (main_config_keeps_unmentioned user_and_local_file cli_train_bs_64 "config").
  - exists (VStr "config.yaml"). split; [vm_compute; reflexivity|].
    right. exists "config.yaml". split; [done|].
    exists {[ "train_bs" := VInt 32 ]}. vm_compute; reflexivity.
  - vm_compute; reflexivity.
  - vm_compute; reflexivity.
Defined.

End ConfigResolution.

Section Selection.

(** X5: a [model_arch] that is not a string is only looked at when
    [model_type] is neither ["seer"] nor ["endovit"], and then raises
    [AttributeError]: with [model_type] ["timm"], or one that is not
    supported, neither [TimmModel] nor the [ValueError] is reached. *)
Theorem selector_arch_not_a_string (model_arch model_type : value) :
  (∀ a, model_arch ≠ VStr a) →
  __get_model_cls model_arch model_type =
    if decide (model_type = VStr "seer") then inr RegNetY
    else if decide (model_type = VStr "endovit") then inr EndoViT
    else inl (AttributeError "lower").
Proof.
  intros Harch. unfold __get_model_cls.
  destruct (decide (model_type = VStr "seer")); [done|].
  destruct (decide (model_type = VStr "endovit")); [done|].
  destruct model_arch as [| | |a]; try done. by destruct (Harch a).
Qed.

Lemma selector_arch_not_a_string_witness :
  __get_model_cls VNone (VStr "timm") = inl (AttributeError "lower").
Proof. by apply (selector_arch_not_a_string VNone (VStr "timm")). Defined.

End Selection.

Section Paths.

Implicit Types (config args : Namespace).

Lemma os_path_join_relative (a name : string) :
  starts_with_sep name = false →
  ∃ sep, os_path_join a name = a +:+ sep +:+ name ∧ (sep = "" ∨ sep = "/").
Proof.
  intros Hname. unfold os_path_join. rewrite Hname.
  destruct ((a =? "") || ends_with_sep a); [exists "" | exists "/"]; auto.
Qed.

(** X6: the class mapping is loaded from the join of [dataset_csv_path] and
    [class_mapping_filename]; when the file name is absolute, as the default
    of the parser is, that is the file name alone and [dataset_csv_path]
    plays no part. *)
Theorem class_mapping_absolute_filename args (d f : string) (tr : list effect) :
  args !! "dataset_csv_path" = Some (VStr d) →
  args !! "class_mapping_filename" = Some (VStr f) →
  starts_with_sep f = true →
  __prepare_class_mapping args tr =
    (inr (ClassMapping f),
     (tr ++ [print_debug (VStr d) (VStr f); load_class_mapping f])%list).
Proof.
  intros Hd Hf Habs.
  unfold __prepare_class_mapping, mbind, IO_bind, pure, perform, getattr.
  rewrite Hd, Hf. simpl. unfold os_path_join. rewrite Habs.
  unfold mret, IO_ret. by rewrite <- app_assoc.
Qed.

Lemma class_mapping_absolute_filename_witness :
  __prepare_class_mapping default_mapping_args [] =
    (inr (ClassMapping default_class_mapping_filename),
     [print_debug (VStr "data/csv") (VStr default_class_mapping_filename);
      load_class_mapping default_class_mapping_filename]).
Proof.
  apply (class_mapping_absolute_filename default_mapping_args "data/csv"
           default_class_mapping_filename []); vm_compute; reflexivity.
Defined.

(** X7: the checkpoint directory is the checkpoint root, at most one
    separator, and the directory name: the names begin with [sweep-] or
    [run-], so neither a sweep id nor a run name makes [os.path.join] drop
    the root. *)
Theorem checkpoint_directory_under_root (wrun : wandb_run) (timestamp : string) config
    (seed metric verbose : value) (root : string) :
  config !! "seed" = Some seed → config !! "metric" = Some metric →
  config !! "checkpoint_dir" = Some (VStr root) → config !! "verbose" = Some verbose →
  ∃ cb others sep name,
    fst (exec (__preparations wrun timestamp config)) = inr (CheckpointCallback cb :: others) ∧
    dirpath cb = root +:+ sep +:+ name ∧
    (sep = "" ∨ sep = "/") ∧
    (name = "sweep-" +:+ default "" (sweep_id wrun) ∨
     name = "run-" +:+ timestamp +:+ "-" +:+ run_name wrun).
Proof.
  intros Hseed Hmetric Hroot Hverbose.
  rewrite (preparations_exec wrun timestamp config seed metric verbose root) by done.
  unfold checkpoint_of. simpl.
  destruct (sweep_given (sweep_id wrun)).
  - destruct (os_path_join_relative root ("sweep-" +:+ default "" (sweep_id wrun)))
      as (sep & Hjoin & Hsep); [done|].
    eexists _, _, sep, _. split; [reflexivity|]. simpl. eauto.
  - destruct (os_path_join_relative root ("run-" +:+ timestamp +:+ "-" +:+ run_name wrun))
      as (sep & Hjoin & Hsep); [done|].
    eexists _, _, sep, _. split; [reflexivity|]. simpl. eauto.
Qed.

Lemma checkpoint_directory_under_root_witness :
  ∃ cb others sep name,
    fst (exec (__preparations sweep_run "20240101_000000" sample_config))
      = inr (CheckpointCallback cb :: others) ∧
    dirpath cb = "checkpoints" +:+ sep +:+ name ∧
    (sep = "" ∨ sep = "/") ∧
    (name = "sweep-" +:+ default "" (sweep_id sweep_run) ∨
     name = "run-" +:+ "20240101_000000" +:+ "-" +:+ run_name sweep_run).
Proof.
  apply (checkpoint_directory_under_root sweep_run "20240101_000000" sample_config
           (VInt 42) (VStr "val_AUC_macro") (VBool false) "checkpoints");
    vm_compute; reflexivity.
Defined.

(** X8: when [__preparations] fails it has created no directory, one case
    apart: [config.verbose] is read after [os.makedirs], so a configuration
    without [verbose] fails with the directory already made. *)
Theorem preparations_failure_and_directory (wrun : wandb_run) (timestamp : string)
    config (e : exn) (calls : list call) :
  exec (__preparations wrun timestamp config) = (inl e, calls) →
  (∃ path exist_ok, os_makedirs path exist_ok ∈ calls) ↔ e = AttributeError "verbose".
Proof.
  unfold exec, __preparations, mbind, M_bind, lift, emit, getattr, mret, M_ret, raise.
  intros Hexec.
  destruct (config !! "seed") as [seed|]; simpl in Hexec.
  2:{ injection Hexec as <- <-. split; [|done].
      intros (path & exist_ok & Hin). by apply elem_of_nil in Hin. }
  destruct (config !! "metric") as [metric|]; simpl in Hexec.
  2:{ injection Hexec as <- <-. split; [|done].
      intros (path & exist_ok & Hin).
      apply elem_of_cons in Hin as [Hin|Hin]; [done | by apply elem_of_nil in Hin]. }
  assert (∀ name,
    match
      match config !! "checkpoint_dir" with
      | Some root =>
          match os_path_join_values root (VStr name) with
          | inl e' => (inl e', [seed_everything seed])
          | inr checkpoint_dir =>
              match config !! "verbose" with
              | Some verbose => (inr tt, [seed_everything seed; os_makedirs checkpoint_dir true])
              | None => (inl (AttributeError "verbose"),
                         [seed_everything seed; os_makedirs checkpoint_dir true])
              end
          end
      | None => (inl (AttributeError "checkpoint_dir"), [seed_everything seed])
      end
    with
    | (inl e', calls') =>
        (∃ path exist_ok, os_makedirs path exist_ok ∈ calls') ↔ e' = AttributeError "verbose"
    | (inr _, _) => True
    end) as Hcases.
  { intros name. destruct (config !! "checkpoint_dir") as [[| | |root]|]; simpl;
      try (split; [|done]; intros (path & exist_ok & Hin);
           apply elem_of_cons in Hin as [Hin|Hin]; [done | by apply elem_of_nil in Hin]).
    destruct (config !! "verbose"); [done|].
    split; [done|]. intros _. eexists _, _. apply elem_of_cons. right. apply list_elem_of_singleton.
    reflexivity. }
  destruct (sweep_given (sweep_id wrun)).
  - specialize (Hcases ("sweep-" +:+ default "" (sweep_id wrun))).
    destruct (config !! "checkpoint_dir") as [[| | |root]|]; simpl in *;
      try (injection Hexec as <- <-; exact Hcases).
    destruct (config !! "verbose"); simpl in *; [done|].
    injection Hexec as <- <-. exact Hcases.
  - specialize (Hcases ("run-" +:+ timestamp +:+ "-" +:+ run_name wrun)).
    destruct (config !! "checkpoint_dir") as [[| | |root]|]; simpl in *;
      try (injection Hexec as <- <-; exact Hcases).
    destruct (config !! "verbose"); simpl in *; [done|].
    injection Hexec as <- <-. exact Hcases.
Qed.

Lemma preparations_failure_and_directory_witness :
  ∃ path exist_ok,
    os_makedirs path exist_ok
      ∈ snd (exec (__preparations sweep_run "20240101_000000" config_without_verbose)).
Proof.
  apply (proj2 (preparations_failure_and_directory sweep_run "20240101_000000"
                  config_without_verbose (AttributeError "verbose")
                  (snd (exec (__preparations sweep_run "20240101_000000"
                                config_without_verbose)))
                  ltac:(vm_compute; reflexivity))).
  reflexivity.
Defined.

End Paths.

Section BatchSizeTrace.

Implicit Types (args : Namespace) (gpu : cuda).

Lemma device_lines_lookup (k i : nat) (ds : list (string * N)) (name : string) (mem : N) :
  ds !! i = Some (name, mem) →
  device_lines k ds !! i = Some (logging_info (MsgGpu (k + i) name mem)).
Proof.
  revert k i. induction ds as [|[n m] ds IH]; intros k i Hi; [done|].
  destruct i as [|i]; simpl in *.
  - injection Hi as -> ->. by rewrite Nat.add_0_r.
  - rewrite (IH (S k) i Hi). do 3 f_equal. lia.
Qed.

Lemma device_lines_length (k : nat) (ds : list (string * N)) :
  length (device_lines k ds) = length ds.
Proof. revert k. induction ds as [|[n m] ds IH]; intros k; simpl; [done | by rewrite IH]. Qed.

Lemma device_lines_only_log (k : nat) (ds : list (string * N)) (c : call) :
  c ∈ device_lines k ds → ∃ msg, c = logging_info msg.
Proof.
  revert k. induction ds as [|[n m] ds IH]; intros k Hin; simpl in Hin.
  - by apply elem_of_nil in Hin.
  - apply elem_of_cons in Hin as [->|Hin]; [by eexists | by apply (IH (S k))].
Qed.

Lemma gpu_report_only_log gpu (c : call) :
  c ∈ gpu_report gpu → ∃ msg, c = logging_info msg.
Proof.
  unfold gpu_report. destruct (is_available gpu).
  - apply device_lines_only_log.
  - intros ->%list_elem_of_singleton. by eexists.
Qed.

(** The accelerators are reported first, whatever follows. *)
Lemma get_batch_size_trace gpu args :
  exec (__get_batch_size gpu args) =
    match args !! "train_bs" with
    | None => (inl (AttributeError "train_bs"), gpu_report gpu)
    | Some a =>
        match args !! "val_bs" with
        | None => (inl (AttributeError "val_bs"), gpu_report gpu)
        | Some b =>
            (inr (chosen_bs a, chosen_bs b),
             (gpu_report gpu ++
              [logging_info (MsgBatchSizes (chosen_bs a) (chosen_bs b));
               wandb_config_update (chosen_bs a) (chosen_bs b) true])%list)
        end
    end.
Proof.
  destruct (args !! "train_bs") as [a|] eqn:Ha.
  2:{ unfold exec, __get_batch_size, gpu_report, mbind, M_bind, lift, getattr.
      rewrite Ha. destruct (is_available gpu); [by rewrite log_devices_trace | done]. }
  destruct (args !! "val_bs") as [b|] eqn:Hb; [by apply get_batch_size_exec|].
  unfold exec, __get_batch_size, gpu_report, mbind, M_bind, lift, getattr.
  rewrite Ha, Hb. destruct (is_available gpu); [by rewrite log_devices_trace | done].
Qed.

(** X9: the sizes that [__get_batch_size] returns are the ones it has just
    logged and written to [wandb.config], as its last two calls; when it
    fails, on a missing [train_bs] or [val_bs], it has written nothing to
    [wandb.config]. *)
Theorem batch_sizes_recorded_as_returned gpu args :
  (∀ train_bs val_bs,
     fst (exec (__get_batch_size gpu args)) = inr (train_bs, val_bs) →
     ∃ before,
       snd (exec (__get_batch_size gpu args)) =
         (before ++ [logging_info (MsgBatchSizes train_bs val_bs);
                     wandb_config_update train_bs val_bs true])%list ∧
       ∀ a b flag, wandb_config_update a b flag ∉ before) ∧
  (∀ e,
     fst (exec (__get_batch_size gpu args)) = inl e →
     ∀ a b flag, wandb_config_update a b flag ∉ snd (exec (__get_batch_size gpu args))).
Proof.
  rewrite get_batch_size_trace.
  destruct (args !! "train_bs") as [a|]; [destruct (args !! "val_bs") as [b|]|]; simpl.
  - split; [|done]. intros train_bs val_bs [= <- <-].
    exists (gpu_report gpu). split; [done|].
    intros a' b' flag Hin. by destruct (gpu_report_only_log gpu _ Hin).
  - split; [done|]. intros e _ a' b' flag Hin.
    by destruct (gpu_report_only_log gpu _ Hin).
  - split; [done|]. intros e _ a' b' flag Hin.
    by destruct (gpu_report_only_log gpu _ Hin).
Qed.

Lemma batch_sizes_recorded_as_returned_witness :
  ∃ before,
    snd (exec (__get_batch_size two_gpus explicit_sizes)) =
      (before ++ [logging_info (MsgBatchSizes (VInt 32) (VInt 16));
                  wandb_config_update (VInt 32) (VInt 16) true])%list ∧
    ∀ a b flag, wandb_config_update a b flag ∉ before.
Proof.
  apply (proj1 (batch_sizes_recorded_as_returned two_gpus explicit_sizes)).
  vm_compute; reflexivity.
Defined.

(** X10: with CUDA available, the [i]-th call of [__get_batch_size] is the
    log line of device [i], with its name and memory, for each device and
    whether or not the sizes can be read afterwards. *)
Theorem gpu_lines_in_device_order gpu args (i : nat) (name : string) (mem : N) :
  is_available gpu = true →
  devices gpu !! i = Some (name, mem) →
  snd (exec (__get_batch_size gpu args)) !! i = Some (logging_info (MsgGpu i name mem)).
Proof.
  intros Hcuda Hdev.
  assert (gpu_report gpu !! i = Some (logging_info (MsgGpu i name mem))) as Hline.
  { unfold gpu_report. rewrite Hcuda. by apply (device_lines_lookup 0). }
  rewrite get_batch_size_trace.
  destruct (args !! "train_bs") as [a|]; [destruct (args !! "val_bs") as [b|]|];
    simpl; try done.
  by apply lookup_app_l_Some.
Qed.

Lemma gpu_lines_in_device_order_witness :
  snd (exec (__get_batch_size two_gpus explicit_sizes)) !! 1%nat
    = Some (logging_info (MsgGpu 1 "A100" 42949672960)).
Proof.
  by apply (gpu_lines_in_device_order two_gpus explicit_sizes 1 "A100" 42949672960).
Defined.

End BatchSizeTrace.

Section CheckpointPathEdges.

Implicit Types (config : Namespace).

(** X11: [__get_checkpoint_path] fails in one case only, with a
    [TypeError]: both options hold a value that Python takes as true and
    one of them is not a string.  A number for one option and nothing for
    the other gives [None], not an error. *)
Theorem checkpoint_path_fails_only_on_non_strings config (e : exn) :
  __get_checkpoint_path config = inl e ↔
    e = TypeError ∧
    configured config "checkpoint_filename" ∧
    configured config "pretrained_checkpoint_dir" ∧
    ¬ (∃ f d, getattr_or_None config "checkpoint_filename" = VStr f ∧
              getattr_or_None config "pretrained_checkpoint_dir" = VStr d).
Proof.
  unfold __get_checkpoint_path, configured.
  destruct (getattr_or_None config "checkpoint_filename") as [|[]|zf|f];
    destruct (getattr_or_None config "pretrained_checkpoint_dir") as [|[]|zd|d];
    simpl;
    try destruct (zf =? 0)%Z; try destruct (zd =? 0)%Z;
    try destruct (f =? ""); try destruct (d =? ""); simpl;
    (split;
     [ intros He; simplify_eq; repeat split; by intros (? & ? & ? & ?)
     | intros (-> & ? & ? & Hstr); try done; exfalso; apply Hstr; by eexists _, _ ]).
Qed.

Lemma checkpoint_path_fails_only_on_non_strings_witness :
  __get_checkpoint_path {[ "checkpoint_filename" := VInt 3;
                           "pretrained_checkpoint_dir" := VStr "pretrained" ]}
    = inl TypeError
  ∧ __get_checkpoint_path {[ "checkpoint_filename" := VInt 3 ]} = inr VNone.
Proof.
  split; [|vm_compute; reflexivity].
  apply (proj2 (checkpoint_path_fails_only_on_non_strings _ TypeError)).
  split; [reflexivity|]. split; [vm_compute; reflexivity|].
  split; [vm_compute; reflexivity|].
  intros (f & d & Hf & _). vm_compute in Hf. discriminate Hf.
Defined.

(** X12: with both options set to non-empty strings, an absolute checkpoint
    file name is the checkpoint path as it stands, the directory being
    dropped; a relative one follows the directory, with one separator
    unless the directory already ends with one. *)
Theorem checkpoint_path_absolute_or_relative config (f d : string) :
  config !! "checkpoint_filename" = Some (VStr f) → f ≠ "" →
  config !! "pretrained_checkpoint_dir" = Some (VStr d) → d ≠ "" →
  ∃ path,
    __get_checkpoint_path config = inr (VStr path) ∧
    (starts_with_sep f = true → path = f) ∧
    (starts_with_sep f = false →
       path = d +:+ (if ends_with_sep d then "" else "/") +:+ f).
Proof.
  intros Hf Hfne%String.eqb_neq Hd Hdne%String.eqb_neq.
  unfold __get_checkpoint_path, getattr_or_None. rewrite Hf, Hd. simpl.
  rewrite Hfne, Hdne. simpl. eexists. split; [reflexivity|].
  unfold os_path_join. rewrite Hdne. simpl.
  split; intros ->; [done|]. by destruct (ends_with_sep d).
Qed.

Lemma checkpoint_path_absolute_or_relative_witness :
  ∃ path,
    __get_checkpoint_path {[ "checkpoint_filename" := VStr "/models/last.ckpt";
                             "pretrained_checkpoint_dir" := VStr "pretrained" ]}
      = inr (VStr path) ∧
    path = "/models/last.ckpt".
Proof.
  destruct (checkpoint_path_absolute_or_relative
              {[ "checkpoint_filename" := VStr "/models/last.ckpt";
                 "pretrained_checkpoint_dir" := VStr "pretrained" ]}
              "/models/last.ckpt" "pretrained")
    as (path & Hpath & Habs & _);
    [vm_compute; reflexivity | done | vm_compute; reflexivity | done |].
  exists path. split; [exact Hpath | by apply Habs].
Defined.

End CheckpointPathEdges.

Section TrainerChoice.

Implicit Types (args : Namespace) (gpu : cuda).

(** X13: for integer [num_devices] and [num_nodes], the trainer gets the
    strategy ["ddp"] exactly when one of the two exceeds 1, and ["auto"]
    otherwise; it gets ["auto"] for [devices] exactly when [num_devices] is
    1, and the number itself otherwise, zero and negative numbers
    included; the accelerator is ["cpu"] only when neither MPS nor CUDA is
    available; its callbacks are the ones it is given. *)
Theorem trainer_strategy_and_devices (mps : bool) gpu (self_callbacks : list callback) args
    (nd nn : Z) (epochs : value) :
  args !! "num_devices" = Some (VInt nd) →
  args !! "num_nodes" = Some (VInt nn) →
  args !! "max_epochs" = Some epochs →
  ∃ t,
    __prepare_trainer mps gpu self_callbacks args = inr t ∧
    (strategy t = "ddp" ↔ (1 < nd ∨ 1 < nn)%Z) ∧
    (strategy t = "auto" ↔ (nd ≤ 1 ∧ nn ≤ 1)%Z) ∧
    (trainer_devices t = VStr "auto" ↔ nd = 1%Z) ∧
    (nd ≠ 1%Z → trainer_devices t = VInt nd) ∧
    (accelerator t = "cpu" ↔ mps = false ∧ is_available gpu = false) ∧
    callbacks t = self_callbacks ∧
    num_nodes t = VInt nn ∧ max_epochs t = epochs.
Proof.
  intros Hnd Hnn Hep. unfold __prepare_trainer, getattr, mbind, result_bind.
  rewrite Hnd, Hnn, Hep. simpl.
  assert ((if mps then "mps" else if is_available gpu then "gpu" else "cpu") = "cpu"
          ↔ mps = false ∧ is_available gpu = false) as Hacc.
  { destruct mps, (is_available gpu); split; try done; by intros [? ?]. }
  destruct (Z.ltb_spec 1 nd) as [Hd|Hd]; simpl; rewrite ?Hnn; simpl;
    [|destruct (Z.ltb_spec 1 nn) as [Hn|Hn]; simpl];
    (eexists; split; [reflexivity|]; simpl;
     destruct (Z.eqb_spec nd 1) as [Heq|Hne];
     split_and!; try exact Hacc; try done;
     try (split; intros; first [done | lia | congruence]);
     intros; first [done | lia | congruence]).
Qed.

Lemma trainer_strategy_and_devices_witness :
  ∃ t,
    __prepare_trainer false two_gpus [] two_devices = inr t ∧
    (strategy t = "ddp" ↔ (1 < 2 ∨ 1 < 1)%Z) ∧
    (strategy t = "auto" ↔ (2 ≤ 1 ∧ 1 ≤ 1)%Z) ∧
    (trainer_devices t = VStr "auto" ↔ 2%Z = 1%Z) ∧
    (2%Z ≠ 1%Z → trainer_devices t = VInt 2) ∧
    (accelerator t = "cpu" ↔ false = false ∧ is_available two_gpus = false) ∧
    callbacks t = [] ∧
    num_nodes t = VInt 1 ∧ max_epochs t = VInt 50.
Proof.
  apply (trainer_strategy_and_devices false two_gpus [] two_devices 2 1 (VInt 50));
    vm_compute; reflexivity.
Defined.

End TrainerChoice.

Section Runs.

Implicit Types (args : Namespace) (w : world) (tr new : list effect).

Lemma behaves_mret P Q {A} (x : A) : behaves P Q (mret x : IO A).
Proof. intros tr. exists []. simpl. by rewrite app_nil_r. Qed.

Lemma behaves_perform (P : effect → Prop) Q (e : effect) : P e → behaves P Q (perform e).
Proof.
  intros He tr. exists [e]. split; [done|]. split; [by apply Forall_singleton | done].
Qed.

Lemma behaves_pure (P : effect → Prop) (Q : exn → Prop) {A} (r : result A) :
  (∀ e, r = inl e → Q e) → behaves P Q (pure r).
Proof.
  intros Hr tr. exists []. simpl. rewrite app_nil_r. split; [done|]. split; [done|].
  destruct r; [by apply Hr | done].
Qed.

Lemma behaves_bind P Q {A B} (m : IO A) (f : A → IO B) :
  behaves P Q m → (∀ a, behaves P Q (f a)) → behaves P Q (m ≫= f).
Proof.
  intros Hm Hf tr. destruct (Hm tr) as (new1 & Htr1 & HP1 & HQ1).
  unfold mbind, IO_bind. destruct (m tr) as [[e|a] tr1]; simpl in *.
  - by exists new1.
  - destruct (Hf a tr1) as (new2 & Htr2 & HP2 & HQ2).
    exists (new1 ++ new2)%list.
    split; [by rewrite Htr2, Htr1, <- app_assoc|].
    split; [by apply Forall_app | done].
Qed.

Lemma behaves_tracked_calls (P : effect → Prop) (Q : exn → Prop) {A} (m : M A) :
  (∀ c, c ∈ snd (exec m) → P (tracked c)) →
  (∀ e, fst (exec m) = inl e → Q e) →
  behaves P Q (tracked_calls m).
Proof.
  intros HP HQ tr. exists (tracked <$> snd (exec m)). unfold tracked_calls. simpl.
  split; [done|]. split.
  - apply Forall_fmap, Forall_forall. intros c Hc. by apply HP.
  - destruct (fst (exec m)) eqn:E; [by apply HQ | done].
Qed.

(** The two ways a sequence can fail, and the one way it can return. *)
Lemma IO_bind_inl {A B} (m : IO A) (f : A → IO B) tr (e : exn) tr' :
  (m ≫= f) tr = (inl e, tr') →
  m tr = (inl e, tr') ∨ ∃ a tr1, m tr = (inr a, tr1) ∧ f a tr1 = (inl e, tr').
Proof.
  unfold mbind, IO_bind. destruct (m tr) as [[e1|a] tr1]; intros Hrun.
  - injection Hrun as -> ->. by left.
  - right. by exists a, tr1.
Qed.

Lemma IO_bind_inr {A B} (m : IO A) (f : A → IO B) tr (b : B) tr' :
  (m ≫= f) tr = (inr b, tr') →
  ∃ a tr1, m tr = (inr a, tr1) ∧ f a tr1 = (inr b, tr').
Proof.
  unfold mbind, IO_bind. destruct (m tr) as [[e1|a] tr1]; intros Hrun; [done|].
  by exists a, tr1.
Qed.

(** What the three computations of [M] can add to the trace and raise. *)
Lemma getattr_raises args (name : string) (e : exn) :
  getattr args name = inl e → e = AttributeError name.
Proof. unfold getattr. destruct (args !! name); [done | by intros [= <-]]. Qed.

Lemma train_calls (self : TrainHandler) (c : call) :
  c ∈ snd (exec (train self)) → ∃ m t v, c = trainer_fit m t v.
Proof.
  unfold exec, train.
  destruct (train_dataloader (data_module self)) as [t|];
    [|intros Hin; by apply elem_of_nil in Hin].
  destruct (truthy (train_loader_only self)); simpl.
  - intros ->%list_elem_of_singleton. by eexists _, _, _.
  - destruct (val_dataloader (data_module self)); simpl.
    + intros ->%list_elem_of_singleton. by eexists _, _, _.
    + intros Hin. by apply elem_of_nil in Hin.
Qed.

Lemma get_batch_size_calls (gpu : cuda) args (c : call) :
  c ∈ snd (exec (__get_batch_size gpu args)) →
  (∃ msg, c = logging_info msg) ∨ ∃ a b flag, c = wandb_config_update a b flag.
Proof.
  rewrite get_batch_size_trace.
  destruct (args !! "train_bs") as [a|]; [destruct (args !! "val_bs") as [b|]|]; simpl;
    try (intros Hin; left; by apply (gpu_report_only_log gpu)).
  intros [Hin|Hin]%elem_of_app; [left; by apply (gpu_report_only_log gpu)|].
  apply elem_of_cons in Hin as [->|Hin]; [left; by eexists|].
  apply list_elem_of_singleton in Hin as ->. right. by eexists _, _, _.
Qed.

Lemma get_batch_size_raises (gpu : cuda) args (e : exn) :
  fst (exec (__get_batch_size gpu args)) = inl e → ∃ name, e = AttributeError name.
Proof.
  rewrite get_batch_size_trace.
  destruct (args !! "train_bs") as [a|]; [destruct (args !! "val_bs") as [b|]|]; simpl;
    try done; intros [= <-]; by eexists.
Qed.

(** [__preparations], case by case. *)
Lemma preparations_cases (wrun : wandb_run) (timestamp : string) args :
  (∃ e, exec (__preparations wrun timestamp args) = (inl e, [])
        ∧ e = AttributeError "seed") ∨
  (∃ e seed, exec (__preparations wrun timestamp args) = (inl e, [seed_everything seed])
             ∧ (e = TypeError ∨ ∃ name, e = AttributeError name)) ∨
  (∃ e seed dir,
     exec (__preparations wrun timestamp args)
       = (inl e, [seed_everything seed; os_makedirs dir true])
     ∧ e = AttributeError "verbose") ∨
  (∃ cbs seed dir,
     exec (__preparations wrun timestamp args)
       = (inr cbs, [seed_everything seed; os_makedirs dir true])).
Proof.
  unfold exec, __preparations, mbind, M_bind, lift, emit, getattr, mret, M_ret, raise.
  destruct (args !! "seed") as [seed|]; simpl; [|left; by eexists].
  right.
  destruct (args !! "metric") as [metric|]; simpl; [|left; eexists _, _; eauto].
  destruct (sweep_given (sweep_id wrun));
    (destruct (args !! "checkpoint_dir") as [[| | |root]|]; simpl;
     try (left; eexists _, _; split; [reflexivity|]; eauto; fail);
     right; destruct (args !! "verbose"); simpl;
     [right; by eexists _, _, _ | left; by eexists _, _, _]).
Qed.

Lemma preparations_calls (wrun : wandb_run) (timestamp : string) args (c : call) :
  c ∈ snd (exec (__preparations wrun timestamp args)) →
  (∃ seed, c = seed_everything seed) ∨ ∃ dir flag, c = os_makedirs dir flag.
Proof.
  destruct (preparations_cases wrun timestamp args)
    as [(e & -> & _) | [(e & seed & -> & _) | [(e & seed & dir & -> & _)
       | (cbs & seed & dir & ->)]]]; simpl; intros Hin.
  - by apply elem_of_nil in Hin.
  - apply list_elem_of_singleton in Hin as ->. left. by eexists.
  - apply elem_of_cons in Hin as [->|Hin]; [left; by eexists|].
    apply list_elem_of_singleton in Hin as ->. right. by eexists _, _.
  - apply elem_of_cons in Hin as [->|Hin]; [left; by eexists|].
    apply list_elem_of_singleton in Hin as ->. right. by eexists _, _.
Qed.

Lemma preparations_raises (wrun : wandb_run) (timestamp : string) args (e : exn) :
  fst (exec (__preparations wrun timestamp args)) = inl e →
  e = TypeError ∨ ∃ name, e = AttributeError name.
Proof.
  destruct (preparations_cases wrun timestamp args)
    as [(e' & -> & ->) | [(e' & seed & -> & He) | [(e' & seed & dir & -> & ->)
       | (cbs & seed & dir & ->)]]]; simpl; try done; intros [= <-]; eauto.
Qed.

Lemma ends_in_bind P S {A B} (R : B → Prop) Q (m : IO A) (f : A → IO B) :
  behaves P Q m → (∀ a, ends_in P S R (f a)) → ends_in P S R (m ≫= f).
Proof.
  intros Hm Hf tr. destruct (Hm tr) as (new1 & Htr1 & HP1 & _).
  unfold mbind, IO_bind. destruct (m tr) as [[e|a] tr1]; simpl in *.
  - by exists new1.
  - specialize (Hf a tr1). destruct (f a tr1) as [[e|b] tr2].
    + destruct Hf as (new2 & -> & HP2). exists (new1 ++ new2)%list.
      split; [by rewrite Htr1, <- app_assoc | by apply Forall_app].
    + destruct Hf as (HR & body & suffix & -> & HP2 & HS). split; [done|].
      exists (new1 ++ body)%list, suffix.
      split; [by rewrite Htr1, <- !app_assoc|]. split; [by apply Forall_app | done].
Qed.

Lemma behaves_weaken (P : effect → Prop) (Q Q' : exn → Prop) {A} (m : IO A) :
  (∀ e, Q e → Q' e) → behaves P Q m → behaves P Q' m.
Proof.
  intros HQ Hm tr. destruct (Hm tr) as (new & Htr & HP & He). exists new.
  split; [done|]. split; [done|]. destruct (fst (m tr)); [by apply HQ | done].
Qed.

Ltac behave :=
  repeat first
    [ apply behaves_mret
    | apply behaves_perform
    | apply behaves_pure
    | apply behaves_tracked_calls
    | match goal with
      | |- behaves _ _ (let '(_, _) := ?p in _) => destruct p
      end
    | (apply behaves_bind; [|intros ?]) ].

Lemma os_path_join_values_raises (a b : value) (e : exn) :
  os_path_join_values a b = inl e → e = TypeError.
Proof. destruct a, b; simpl; by intros [= <-]. Qed.

Lemma quiet_tracked (c : call) :
  (∀ m d p, c ≠ trainer_test m d p) → quiet (tracked c).
Proof. intros Hc. split; [|done]. intros m d p [= ->]. by apply (Hc m d p). Qed.

Lemma prepare_class_mapping_behaves args :
  behaves quiet not_ValueError (__prepare_class_mapping args).
Proof.
  unfold __prepare_class_mapping. behave; try done.
  all: try (intros e ->%getattr_raises; done).
  intros e ->%os_path_join_values_raises. done.
Qed.

Lemma prepare_transforms_behaves args :
  behaves quiet not_ValueError (__prepare_transforms args).
Proof.
  unfold __prepare_transforms. behave; try done.
  all: intros e ->%getattr_raises; done.
Qed.

Lemma batch_size_behaves (gpu : cuda) args :
  behaves quiet not_ValueError (tracked_calls (__get_batch_size gpu args)).
Proof.
  apply behaves_tracked_calls.
  - intros c [[msg ->] | (a & b & flag & ->)]%get_batch_size_calls;
      by apply quiet_tracked.
  - by intros e [name ->]%get_batch_size_raises.
Qed.

Lemma prepare_data_module_ends (gpu : cuda) (built : DataModule) args :
  ends_in quiet data_module_calls (λ dm, dm = built)
    (__prepare_data_module gpu built args).
Proof.
  unfold __prepare_data_module.
  eapply ends_in_bind; [apply prepare_class_mapping_behaves | intros class_mapping].
  eapply ends_in_bind; [apply prepare_transforms_behaves | intros transforms].
  eapply ends_in_bind; [apply batch_size_behaves | intros [train_bs val_bs]].
  do 7 (eapply ends_in_bind;
        [apply (behaves_pure quiet (λ _, True)); done | intros ?]).
  intros tr. simpl. split; [done|]. eexists [], _. rewrite app_nil_l.
  split; [by rewrite <- app_assoc|]. split; [done | by eexists].
Qed.

Lemma prepare_data_module_behaves (gpu : cuda) (built : DataModule) args :
  behaves quiet not_ValueError (__prepare_data_module gpu built args).
Proof.
  unfold __prepare_data_module.
  apply behaves_bind; [apply prepare_class_mapping_behaves | intros class_mapping].
  apply behaves_bind; [apply prepare_transforms_behaves | intros transforms].
  apply behaves_bind; [apply batch_size_behaves | intros [train_bs val_bs]].
  behave; try done.
  all: intros e ->%getattr_raises; done.
Qed.

Lemma py_gt_raises (v : value) (n : Z) (e : exn) : py_gt v n = inl e → e = TypeError.
Proof. destruct v; simpl; by intros [= <-]. Qed.

Lemma prepare_trainer_raises (mps : bool) (gpu : cuda) (cbs : list callback) args (e : exn) :
  __prepare_trainer mps gpu cbs args = inl e → not_ValueError e.
Proof.
  unfold __prepare_trainer, mbind, result_bind.
  destruct (getattr args "num_devices") as [e1|nd] eqn:Hnd;
    [intros [= <-]; by apply getattr_raises in Hnd as ->|].
  destruct (py_gt nd 1) as [e1|more] eqn:Hmore;
    [intros [= <-]; by apply py_gt_raises in Hmore as ->|].
  destruct (getattr args "num_nodes") as [e1|nn] eqn:Hnn.
  - apply getattr_raises in Hnn as ->. destruct more; simpl; by intros [= <-].
  - destruct more; simpl.
    + destruct (getattr args "max_epochs") as [e1|me] eqn:Hme; [|done].
      intros [= <-]. by apply getattr_raises in Hme as ->.
    + destruct (py_gt nn 1) as [e1|b] eqn:Hb; simpl;
        [intros [= <-]; by apply py_gt_raises in Hb as ->|].
      destruct (getattr args "max_epochs") as [e1|me] eqn:Hme; [|done].
      intros [= <-]. by apply getattr_raises in Hme as ->.
Qed.

Lemma prepare_trainer_callbacks (mps : bool) (gpu : cuda) (cbs : list callback) args
    (t : Trainer) :
  __prepare_trainer mps gpu cbs args = inr t → callbacks t = cbs.
Proof.
  unfold __prepare_trainer, mbind, result_bind.
  destruct (getattr args "num_devices") as [|nd]; [done|].
  destruct (py_gt nd 1) as [|more]; [done|].
  destruct (getattr args "num_nodes") as [|nn]; [by destruct more|].
  destruct (getattr args "max_epochs") as [|me];
    [destruct more; simpl; [done | by destruct (py_gt nn 1)]|].
  destruct more; simpl; [by intros [= <-]|].
  destruct (py_gt nn 1); simpl; [done | by intros [= <-]].
Qed.

Lemma preparations_behaves (wrun : wandb_run) (timestamp : string) args :
  behaves quiet not_ValueError (tracked_calls (__preparations wrun timestamp args)).
Proof.
  apply behaves_tracked_calls.
  - intros c [[seed ->] | (dir & flag & ->)]%preparations_calls; by apply quiet_tracked.
  - by intros e [-> | [name ->]]%preparations_raises.
Qed.

Lemma train_behaves (self : TrainHandler) :
  behaves quiet (λ _, True) (tracked_calls (train self)).
Proof.
  apply behaves_tracked_calls; [|done].
  intros c (m & t & v & ->)%train_calls. by apply quiet_tracked.
Qed.

Lemma init_behaves w args : behaves quiet (λ _, True) (__init__ w args).
Proof.
  unfold __init__.
  apply behaves_bind;
    [apply (behaves_weaken quiet not_ValueError); [done | apply preparations_behaves]
    | intros self_callbacks].
  apply behaves_bind;
    [apply (behaves_weaken quiet not_ValueError); [done | apply prepare_data_module_behaves]
    | intros self_data_module].
  behave; done.
Qed.

Lemma main_ends w args :
  ends_in quiet (closing_calls w) (λ _, True) (main w args).
Proof.
  unfold main.
  do 3 (eapply ends_in_bind;
        [apply (behaves_pure quiet (λ _, True)); done | intros ?]).
  do 3 (eapply ends_in_bind;
        [apply (behaves_perform quiet (λ _, True)); done | intros ?]).
  eapply ends_in_bind; [apply init_behaves | intros trainer].
  eapply ends_in_bind; [apply train_behaves | intros ?].
  intros tr. simpl. split; [done|]. eexists [], _. rewrite app_nil_l.
  split; [by rewrite <- !app_assoc|]. by split.
Qed.

Lemma tracked_calls_inr {A} (m : M A) tr (a : A) tr1 :
  tracked_calls m tr = (inr a, tr1) →
  fst (exec m) = inr a ∧ tr1 = (tr ++ (tracked <$> snd (exec m)))%list.
Proof. unfold tracked_calls. by intros [= -> <-]. Qed.

Lemma pure_inr {A} (r : result A) tr (a : A) tr1 :
  pure r tr = (inr a, tr1) → r = inr a ∧ tr1 = tr.
Proof. unfold pure. by intros [= -> <-]. Qed.

Lemma perform_inr (e : effect) tr (u : unit) tr1 :
  perform e tr = (inr u, tr1) → tr1 = (tr ++ [e])%list.
Proof. unfold perform. by intros [= <-]. Qed.

(** The components of a handler that [__init__] returns. *)
Lemma init_returns w args tr (h : handler_state) tr' :
  __init__ w args tr = (inr h, tr') →
  fst (exec (__preparations (w_run w) (w_timestamp w) args))
    = inr (callbacks (self_trainer h)) ∧
  __prepare_trainer (w_mps w) (w_cuda w) (callbacks (self_trainer h)) args
    = inr (self_trainer h) ∧
  __prepare_model args = inr (self_model (handler h)) ∧
  data_module (handler h) = w_data_module w ∧
  args !! "train_loader_only" = Some (train_loader_only (handler h)).
Proof.
  unfold __init__. intros Hrun.
  apply IO_bind_inr in Hrun as (cbs & tr1 & [Hcbs _]%tracked_calls_inr & Hrun).
  apply IO_bind_inr in Hrun as (dm & tr2 & Hdm & Hrun).
  apply IO_bind_inr in Hrun as (t & tr3 & [Ht _]%pure_inr & Hrun).
  apply IO_bind_inr in Hrun as (? & tr4 & _ & Hrun).
  apply IO_bind_inr in Hrun as (m & tr5 & [Hm _]%pure_inr & Hrun).
  apply IO_bind_inr in Hrun as (? & tr6 & _ & Hrun).
  apply IO_bind_inr in Hrun as (flag & tr7 & [Hflag _]%pure_inr & Hrun).
  injection Hrun as <- _. simpl.
  pose proof (prepare_data_module_ends (w_cuda w) (w_data_module w) args tr1) as Hends.
  rewrite Hdm in Hends. destruct Hends as [-> _].
  rewrite (prepare_trainer_callbacks _ _ _ _ _ Ht).
  split; [done|]. split; [done|]. split; [done|]. split; [done|].
  unfold getattr in Hflag. destruct (args !! "train_loader_only"); [|done].
  by injection Hflag as ->.
Qed.


(** X14: what [__init__] leaves when it returns: the callbacks of the
    trainer are the ones that [__preparations] built, the trainer and the
    model are the ones that [__prepare_trainer] and [__prepare_model] give
    for the same arguments, the data module is the one that was set up, and
    [train_loader_only] is the option of that name. *)
Theorem init_result w args tr (h : handler_state) tr' :
  __init__ w args tr = (inr h, tr') →
  fst (exec (__preparations (w_run w) (w_timestamp w) args))
    = inr (callbacks (self_trainer h)) ∧
  __prepare_trainer (w_mps w) (w_cuda w) (callbacks (self_trainer h)) args
    = inr (self_trainer h) ∧
  __prepare_model args = inr (self_model (handler h)) ∧
  data_module (handler h) = w_data_module w ∧
  args !! "train_loader_only" = Some (train_loader_only (handler h)).
Proof. apply init_returns. Qed.

Lemma init_result_witness :
  ∃ h tr',
    __init__ sample_world full_args [] = (inr h, tr') ∧
    fst (exec (__preparations (w_run sample_world) (w_timestamp sample_world) full_args))
      = inr (callbacks (self_trainer h)) ∧
    __prepare_trainer (w_mps sample_world) (w_cuda sample_world)
        (callbacks (self_trainer h)) full_args
      = inr (self_trainer h) ∧
    __prepare_model full_args = inr (self_model (handler h)) ∧
    data_module (handler h) = w_data_module sample_world ∧
    full_args !! "train_loader_only" = Some (train_loader_only (handler h)).
Proof.
  destruct (__init__ sample_world full_args []) as [[e|h] tr'] eqn:Hrun;
    [vm_compute in Hrun; discriminate Hrun|].
  exists h, tr'. split; [reflexivity|].
  exact (init_result sample_world full_args [] h tr' Hrun).
Defined.

(** X15: [__init__] checks the model type last.  When it fails with a
    [ValueError], the error is the one of [__prepare_model], and by then the
    seed is set, the checkpoint directory is created, the data module is
    built and set up and the trainer is built, which is the last call
    made. *)
Theorem init_rejects_model_type_last w args tr (msg : string) tr' :
  __init__ w args tr = (inl (ValueError msg), tr') →
  __prepare_model args = inl (ValueError msg) ∧
  ∃ seed dir body a t,
    tr' = (tr ++ [tracked (seed_everything seed); tracked (os_makedirs dir true)]
              ++ body
              ++ [DataModule_new a; DataModule_setup; Trainer_new t])%list.
Proof.
  unfold __init__. intros Hrun.
  apply IO_bind_inl in Hrun as [Hfail | (cbs & tr1 & Hprep & Hrun)].
  { destruct (preparations_behaves (w_run w) (w_timestamp w) args tr) as (? & _ & _ & He).
    rewrite Hfail in He. by destruct (He msg). }
  apply tracked_calls_inr in Hprep as [Hcbs ->].
  destruct (preparations_cases (w_run w) (w_timestamp w) args)
    as [(e & Hp & _) | [(e & seed & Hp & _) | [(e & seed & dir & Hp & _)
       | (cbs' & seed & dir & Hp)]]]; rewrite Hp in Hcbs; try done.
  rewrite Hp in Hrun. simpl in Hrun. clear Hcbs Hp.
  apply IO_bind_inl in Hrun as [Hfail | (dm & tr2 & Hdm & Hrun)].
  { destruct (prepare_data_module_behaves (w_cuda w) (w_data_module w) args
                (tr ++ [tracked (seed_everything seed); tracked (os_makedirs dir true)])%list)
      as (? & _ & _ & He).
    rewrite Hfail in He. by destruct (He msg). }
  pose proof (prepare_data_module_ends (w_cuda w) (w_data_module w) args
                (tr ++ [tracked (seed_everything seed); tracked (os_makedirs dir true)])%list)
    as Hends.
  rewrite Hdm in Hends. destruct Hends as (_ & body & suffix & -> & _ & [a ->]).
  apply IO_bind_inl in Hrun as [Hfail | (t & tr3 & [Ht ->]%pure_inr & Hrun)].
  { unfold pure in Hfail. injection Hfail as Hfail _.
    by destruct (prepare_trainer_raises _ _ _ _ _ Hfail msg). }
  apply IO_bind_inl in Hrun as [Hfail | ([] & tr4 & ->%perform_inr & Hrun)]; [done|].
  apply IO_bind_inl in Hrun as [Hfail | (m & tr5 & [Hm ->]%pure_inr & Hrun)].
  { unfold pure in Hfail. injection Hfail as Hfail <-. split; [done|].
    exists seed, dir, body, a, t. by rewrite <- !app_assoc. }
  apply IO_bind_inl in Hrun as [Hfail | ([] & tr6 & ->%perform_inr & Hrun)]; [done|].
  apply IO_bind_inl in Hrun as [Hfail | (flag & tr7 & _ & Hrun)]; [|done].
  unfold pure in Hfail. injection Hfail as Hfail _.
  by apply getattr_raises in Hfail.
Qed.

Lemma init_rejects_model_type_last_witness :
  __prepare_model unsupported_args = inl (ValueError "Model type resnet is not supported.") ∧
  ∃ seed dir body a t,
    snd (__init__ sample_world unsupported_args []) =
      ([] ++ [tracked (seed_everything seed); tracked (os_makedirs dir true)]
          ++ body
          ++ [DataModule_new a; DataModule_setup; Trainer_new t])%list.
Proof.
  apply (init_rejects_model_type_last sample_world unsupported_args []
           "Model type resnet is not supported."
           (snd (__init__ sample_world unsupported_args []))).
  vm_compute; reflexivity.
Defined.

(** X16: no run evaluates on the test loader: [main] never calls
    [trainer.test], whatever the world and the arguments. *)
Theorem main_never_tests w args (m : model) (d : option loader) (ckpt_path : string) :
  tracked (trainer_test m d ckpt_path) ∉ snd (main w args []).
Proof.
  pose proof (main_ends w args []) as Hends.
  destruct (main w args []) as [[e|u] tr']; simpl.
  - destruct Hends as (new & -> & Hquiet). simpl. intros Hin.
    rewrite Forall_forall in Hquiet. destruct (Hquiet _ Hin) as [Htest _].
    by apply (Htest m d ckpt_path).
  - destruct Hends as (_ & body & suffix & -> & Hquiet & Hsuffix).
    unfold closing_calls in Hsuffix. subst suffix. simpl.
    intros [Hin|Hin]%elem_of_app.
    + rewrite Forall_forall in Hquiet. destruct (Hquiet _ Hin) as [Htest _].
      by apply (Htest m d ckpt_path).
    + repeat (apply elem_of_cons in Hin as [Hin|Hin]; [done|]).
      by apply elem_of_nil in Hin.
Qed.

Lemma main_never_tests_witness :
  tracked (trainer_test (Model RegNetY VNone) (Some (Loader 3)) "best")
    ∉ snd (main sample_world full_args []).
Proof.
  exact (main_never_tests sample_world full_args
           (Model RegNetY VNone) (Some (Loader 3)) "best").
Defined.

(** X17: [main] returns exactly when it has logged the model artifact, and
    exactly when it has called [wandb.finish]: a run that raises, in the
    configuration, in [__init__] or in [train], logs no artifact and leaves
    the session unfinished; a run that returns ends with the artifact made
    from the best checkpoint path, logged, and [wandb.finish]. *)
Theorem main_closes_iff_returns w args :
  (fst (main w args []) = inr tt ↔ wandb_log_artifact ∈ snd (main w args [])) ∧
  (fst (main w args []) = inr tt ↔ wandb_finish ∈ snd (main w args [])) ∧
  (fst (main w args []) = inr tt →
   ∃ body, snd (main w args []) =
             (body ++ [wandb_Artifact "eva02_ulcers_erosions" "model";
                       artifact_add_file (w_best_model_path w);
                       wandb_log_artifact; wandb_finish])%list).
Proof.
  pose proof (main_ends w args []) as Hends.
  destruct (main w args []) as [[e|[]] tr']; simpl.
  - destruct Hends as (new & -> & Hquiet). simpl. rewrite Forall_forall in Hquiet.
    split_and!; try done; split; try done; intros Hin;
      by destruct (Hquiet _ Hin) as (_ & ? & ?).
  - destruct Hends as (_ & body & suffix & -> & Hquiet & Hsuffix).
    unfold closing_calls in Hsuffix. subst suffix. simpl.
    split_and!.
    + split; [intros _ | done]. apply elem_of_app. right.
      do 2 apply list_elem_of_further. apply list_elem_of_here.
    + split; [intros _ | done]. apply elem_of_app. right.
      do 3 apply list_elem_of_further. apply list_elem_of_here.
    + intros _. by exists body.
Qed.

Lemma main_closes_iff_returns_witness :
  wandb_log_artifact ∈ snd (main sample_world full_args []) ∧
  wandb_finish ∈ snd (main sample_world full_args []) ∧
  ∃ body, snd (main sample_world full_args []) =
            (body ++ [wandb_Artifact "eva02_ulcers_erosions" "model";
                      artifact_add_file (w_best_model_path sample_world);
                      wandb_log_artifact; wandb_finish])%list.
Proof.
  assert (fst (main sample_world full_args []) = inr tt) as Hreturns
    by (vm_compute; reflexivity).
  destruct (main_closes_iff_returns sample_world full_args) as (Hlog & Hfinish & Hshape).
  split; [by apply Hlog|]. split; [by apply Hfinish | by apply Hshape].
Defined.

(** X18: in a run that returns, the calls are those made before training,
    those of [train], and the four closing calls; [train] runs on the data
    module that was set up, with the model and the [train_loader_only]
    flag read from the configuration that [wandb] hands back for the
    resolved arguments, not from the command line as it was. *)
Theorem main_trains_on_wandb_config w args :
  fst (main w args []) = inr tt →
  ∃ resolved m flag before,
    main_config (w_files w) args = inr resolved ∧
    __prepare_model (w_wandb_config w resolved) = inr m ∧
    w_wandb_config w resolved !! "train_loader_only" = Some flag ∧
    snd (main w args []) =
      (before
       ++ (tracked <$> snd (exec (train {| data_module := w_data_module w;
                                         self_model := m;
                                         train_loader_only := flag |})))
       ++ [wandb_Artifact "eva02_ulcers_erosions" "model";
           artifact_add_file (w_best_model_path w);
           wandb_log_artifact; wandb_finish])%list.
Proof.
  destruct (main w args []) as [[e|[]] tr'] eqn:Hrun; simpl; [done|]. intros _.
  unfold main in Hrun.
  apply IO_bind_inr in Hrun as (resolved & tr1 & [Hres ->]%pure_inr & Hrun).
  apply IO_bind_inr in Hrun as (entity & tr2 & [_ ->]%pure_inr & Hrun).
  apply IO_bind_inr in Hrun as (project & tr3 & [_ ->]%pure_inr & Hrun).
  apply IO_bind_inr in Hrun as ([] & tr4 & ->%perform_inr & Hrun).
  apply IO_bind_inr in Hrun as ([] & tr5 & ->%perform_inr & Hrun).
  apply IO_bind_inr in Hrun as ([] & tr6 & ->%perform_inr & Hrun).
  apply IO_bind_inr in Hrun as (h & tr7 & Hinit & Hrun).
  apply IO_bind_inr in Hrun as ([] & tr8 & [_ ->]%tracked_calls_inr & Hrun).
  apply IO_bind_inr in Hrun as ([] & tr9 & ->%perform_inr & Hrun).
  apply IO_bind_inr in Hrun as ([] & tr10 & ->%perform_inr & Hrun).
  apply IO_bind_inr in Hrun as ([] & tr11 & ->%perform_inr & Hrun).
  apply perform_inr in Hrun as ->.
  apply init_returns in Hinit as (_ & _ & Hmodel & Hdm & Hflag).
  exists resolved, (self_model (handler h)), (train_loader_only (handler h)), tr7.
  split; [done|]. split; [done|]. split; [done|].
  rewrite <- Hdm. destruct h as [[dm m flag] t]. simpl. by rewrite <- !app_assoc.
Qed.

Lemma main_trains_on_wandb_config_witness :
  ∃ resolved m flag before,
    main_config (w_files sample_world) full_args = inr resolved ∧
    __prepare_model (w_wandb_config sample_world resolved) = inr m ∧
    w_wandb_config sample_world resolved !! "train_loader_only" = Some flag ∧
    snd (main sample_world full_args []) =
      (before
       ++ (tracked <$> snd (exec (train {| data_module := w_data_module sample_world;
                                         self_model := m;
                                         train_loader_only := flag |})))
       ++ [wandb_Artifact "eva02_ulcers_erosions" "model";
           artifact_add_file (w_best_model_path sample_world);
           wandb_log_artifact; wandb_finish])%list.
Proof.
  apply (main_trains_on_wandb_config sample_world full_args).
  vm_compute; reflexivity.
Defined.

(** X19: when [__prepare_data_module] returns, its last two calls build and
    set up the data module, and the data module is built with the batch
    sizes that [__get_batch_size] chose, hence with 64 for a size given as
    0 or [None], with the class mapping loaded from the join of
    [dataset_csv_path] and [class_mapping_filename], and with [fold_id] as
    its fold index. *)
Theorem data_module_arguments (gpu : cuda) (built : DataModule) args tr
    (dm : DataModule) tr' :
  __prepare_data_module gpu built args tr = (inr dm, tr') →
  dm = built ∧
  ∃ before a path,
    tr' = (before ++ [DataModule_new a; DataModule_setup])%list ∧
    fst (exec (__get_batch_size gpu args)) = inr (dm_train_bs a, dm_val_bs a) ∧
    args !! "dataset_csv_path" = Some (dm_dataset_csv_path a) ∧
    os_path_join_values (dm_dataset_csv_path a)
        (getattr_or_None args "class_mapping_filename") = inr path ∧
    dm_class_mapping a = ClassMapping path ∧
    args !! "fold_id" = Some (dm_fold_idx a).
Proof.
  unfold __prepare_data_module. intros Hrun.
  apply IO_bind_inr in Hrun as (cm & tr1 & Hcm & Hrun).
  apply IO_bind_inr in Hrun as (tf & tr2 & _ & Hrun).
  apply IO_bind_inr in Hrun as ([train_bs val_bs] & tr3 & [Hbs _]%tracked_calls_inr & Hrun).
  apply IO_bind_inr in Hrun as (dataset_path & tr4 & _ & Hrun).
  apply IO_bind_inr in Hrun as (csv & tr5 & [Hcsv _]%pure_inr & Hrun).
  apply IO_bind_inr in Hrun as (fold & tr6 & [Hfold _]%pure_inr & Hrun).
  apply IO_bind_inr in Hrun as (workers & tr7 & _ & Hrun).
  apply IO_bind_inr in Hrun as (train_frac & tr8 & _ & Hrun).
  apply IO_bind_inr in Hrun as (val_frac & tr9 & _ & Hrun).
  apply IO_bind_inr in Hrun as (include & tr10 & _ & Hrun).
  apply IO_bind_inr in Hrun as ([] & tr11 & ->%perform_inr & Hrun).
  apply IO_bind_inr in Hrun as ([] & tr12 & ->%perform_inr & Hrun).
  injection Hrun as <- <-. split; [done|].
  unfold __prepare_class_mapping in Hcm.
  apply IO_bind_inr in Hcm as (csv1 & ? & [Hcsv1 _]%pure_inr & Hcm).
  apply IO_bind_inr in Hcm as (name1 & ? & [Hname1 _]%pure_inr & Hcm).
  apply IO_bind_inr in Hcm as ([] & ? & _ & Hcm).
  apply IO_bind_inr in Hcm as (csv2 & ? & [Hcsv2 _]%pure_inr & Hcm).
  apply IO_bind_inr in Hcm as (name2 & ? & [Hname2 _]%pure_inr & Hcm).
  apply IO_bind_inr in Hcm as (path & ? & [Hpath _]%pure_inr & Hcm).
  apply IO_bind_inr in Hcm as ([] & ? & _ & Hcm).
  injection Hcm as <- _.
  unfold getattr in Hcsv, Hfold, Hcsv2, Hname2.
  destruct (args !! "dataset_csv_path") as [csv'|] eqn:Ecsv; [|done].
  destruct (args !! "fold_id") as [fold'|]; [|done].
  destruct (args !! "class_mapping_filename") as [name'|] eqn:Ename; [|done].
  injection Hcsv as <-. injection Hfold as <-. injection Hcsv2 as <-.
  injection Hname2 as <-.
  eexists _, _, path. split; [by rewrite <- app_assoc|]. simpl.
  split; [done|]. split; [done|]. split; [|done].
  unfold getattr_or_None. by rewrite Ename.
Qed.

Lemma data_module_arguments_witness :
  ∃ before a path,
    snd (__prepare_data_module two_gpus (w_data_module sample_world) zero_sizes_args [])
      = (before ++ [DataModule_new a; DataModule_setup])%list ∧
    fst (exec (__get_batch_size two_gpus zero_sizes_args))
      = inr (dm_train_bs a, dm_val_bs a) ∧
    zero_sizes_args !! "dataset_csv_path" = Some (dm_dataset_csv_path a) ∧
    os_path_join_values (dm_dataset_csv_path a)
        (getattr_or_None zero_sizes_args "class_mapping_filename") = inr path ∧
    dm_class_mapping a = ClassMapping path ∧
    zero_sizes_args !! "fold_id" = Some (dm_fold_idx a).
Proof.
  apply (data_module_arguments two_gpus (w_data_module sample_world) zero_sizes_args []
           (w_data_module sample_world)
           (snd (__prepare_data_module two_gpus (w_data_module sample_world)
                   zero_sizes_args []))).
  vm_compute; reflexivity.
Defined.

End Runs.
